(** * crouton_client/async.py: AsyncCroutonClient

    A shallow embedding of the asynchronous REST client: URL construction
    ([_build_url]) and the four request operations ([get], [post], [put],
    [delete]), followed by the properties of the client's contract.

    Conventions of the embedding.
    - A Python [str] is a [string] holding its UTF-8 encoding.  The
      operations the client applies to strings (concatenation, [strip] of an
      ASCII character, the test ['?' in url], percent-encoding) act on the
      UTF-8 bytes exactly as they act on the code points.
    - [Optional[str]] is [option string]; Python truthiness of such a value
      ([if item_id:]) is [truthy]: neither [None] nor the empty string.
    - A [Dict[str, Any]] handed in by a caller is a reference [loc] into a
      store of dictionaries, because [post] writes to it.
    - [await] is sequencing in a state-and-exception monad over [World].
    - The [logger] calls only write to the process log; they are left out. *)

From Stdlib Require Import ZArith NArith Ascii String DecimalString.
From Stdlib Require DecimalPos.
From stdpp Require Import base option list gmap strings.

Local Open Scope string_scope.

(** ** Python string primitives *)

Module Str.

(** [bool(s)] for a string. *)
Definition nonempty (s : string) : bool :=
  match s with "" => false | String _ _ => true end.

(** [bool(o)] for an [Optional[str]]. *)
Definition truthy (o : option string) : bool :=
  match o with None => false | Some s => nonempty s end.

(** [s.lstrip(c)] for a one-character argument. *)
Fixpoint lstrip (c : ascii) (s : string) : string :=
  match s with
  | "" => ""
  | String a s' => if Ascii.eqb a c then lstrip c s' else s
  end.

(** [s.rstrip(c)] for a one-character argument. *)
Fixpoint rstrip (c : ascii) (s : string) : string :=
  match s with
  | "" => ""
  | String a s' =>
      match rstrip c s' with
      | "" => if Ascii.eqb a c then "" else String a ""
      | r => String a r
      end
  end.

(** [s.strip(c)] for a one-character argument. *)
Definition strip (c : ascii) (s : string) : string := rstrip c (lstrip c s).

(** [s.startswith(p)]. *)
Fixpoint startswith (s p : string) : bool :=
  match p, s with
  | "", _ => true
  | String _ _, "" => false
  | String b p', String a s' => Ascii.eqb a b && startswith s' p'
  end.

(** [sub in s]. *)
Fixpoint contains (s sub : string) : bool :=
  startswith s sub
  || match s with "" => false | String _ s' => contains s' sub end.

(** [s.endswith(p)], as a proposition. *)
Definition endswith (s p : string) : Prop := exists pre, s = pre +:+ p.

(** [str(n)] for an [int]. *)
Definition str_int (n : Z) : string := NilZero.string_of_int (Z.to_int n).

(** [c * n]: the character [c] repeated [n] times. *)
Fixpoint replicate (n : nat) (c : ascii) : string :=
  match n with
  | O => ""
  | S n' => String c (replicate n' c)
  end.

(** The first and the last character of a string, if any. *)
Definition head (s : string) : option ascii :=
  match s with "" => None | String a _ => Some a end.

Fixpoint last (s : string) : option ascii :=
  match s with
  | "" => None
  | String a "" => Some a
  | String _ s' => last s'
  end.

(** The value of a decimal digit. *)
Definition digit_of (a : ascii) : option Z :=
  let n := N_of_ascii a in
  if ((48 <=? n) && (n <=? 57))%N then Some (Z.of_N n - 48)%Z else None.

(** The number a string of decimal digits denotes, continuing from [acc]. *)
Fixpoint read_digits (acc : Z) (s : string) : option Z :=
  match s with
  | "" => Some acc
  | String a s' =>
      match digit_of a with
      | Some d => read_digits (10 * acc + d) s'
      | None => None
      end
  end.

(** [int(s)] for a decimal numeral with an optional minus sign. *)
Definition read_int (s : string) : option Z :=
  match s with
  | "" => None
  | String a s' =>
      if Ascii.eqb a "-"
      then match s' with
           | "" => None
           | _ => option_map Z.opp (read_digits 0 s')
           end
      else read_digits 0 s
  end.

(** Every character of [s] satisfies [p]. *)
Fixpoint all_chars (p : ascii -> bool) (s : string) : bool :=
  match s with
  | "" => true
  | String a s' => p a && all_chars p s'
  end.

End Str.

(** ** urllib.parse.urlencode

  [urlencode] of a mapping with string keys and values: every pair is
  rendered [quote_plus(k) + "=" + quote_plus(v)], the pairs are joined by
  ["&"].  [quote_plus] keeps the unreserved characters (letters, digits and
  [_.-~]), writes a space as [+], and writes every other byte of the UTF-8
  encoding as [%XX] with upper-case hexadecimal digits. *)

Module Urllib.

Definition always_safe (a : ascii) : bool :=
  let n := N_of_ascii a in
  ((65 <=? n) && (n <=? 90) || (97 <=? n) && (n <=? 122)
   || (48 <=? n) && (n <=? 57)
   || (n =? 95) || (n =? 46) || (n =? 45) || (n =? 126))%N.

Definition hex_upper (d : N) : ascii :=
  if (d <? 10)%N then ascii_of_N (48 + d) else ascii_of_N (55 + d).

Definition percent (a : ascii) : string :=
  let n := N_of_ascii a in
  String "%" (String (hex_upper (n / 16)) (String (hex_upper (n mod 16)) "")).

Fixpoint quote_plus (s : string) : string :=
  match s with
  | "" => ""
  | String a s' =>
      (if always_safe a then String a ""
       else if Ascii.eqb a " " then "+"
       else percent a) +:+ quote_plus s'
  end.

Definition pair_enc (kv : string * string) : string :=
  quote_plus (fst kv) +:+ "=" +:+ quote_plus (snd kv).

Fixpoint urlencode (query : list (string * string)) : string :=
  match query with
  | [] => ""
  | [kv] => pair_enc kv
  | kv :: rest => pair_enc kv +:+ "&" +:+ urlencode rest
  end.



End Urllib.

(** ** JSON values

    The values a response body decodes to and a request body is made of.
    Numbers are integers here; a Python [dict] with string keys is a finite
    map. *)

Set Warnings "-register-all".

Inductive json : Type :=
| JNull
| JBool (b : bool)
| JInt (n : Z)
| JStr (s : string)
| JArr (items : list json)
| JObj (fields : gmap string json).

Abbreviation dict := (gmap string json).

(** A decoder for a subset of JSON: [null], [true], [false], integers,
    strings without escapes, arrays and objects, with white space between
    tokens.  A repeated key keeps its last value, as in Python.  It is the
    decoder the examples run the client with; the operations themselves take
    the response decoder as a parameter. *)

Module JsonText.

(** The double-quote character. *)
Definition dquote : ascii := "034"%char.

Definition is_ws (a : ascii) : bool :=
  Ascii.eqb a " " || Ascii.eqb a "009" || Ascii.eqb a "010" || Ascii.eqb a "013".

Fixpoint skip_ws (s : string) : string :=
  match s with
  | String a s' => if is_ws a then skip_ws s' else s
  | "" => ""
  end.

Definition digit_val (a : ascii) : option Z :=
  let n := N_of_ascii a in
  if ((48 <=? n) && (n <=? 57))%N then Some (Z.of_N n - 48)%Z else None.

Fixpoint digits (acc : Z) (s : string) : Z * string :=
  match s with
  | String a s' =>
      match digit_val a with
      | Some d => digits (10 * acc + d)%Z s'
      | None => (acc, s)
      end
  | "" => (acc, "")
  end.

(** The characters that would continue a number as a fraction or exponent. *)
Definition float_mark (s : string) : bool :=
  match s with
  | String a _ => Ascii.eqb a "." || Ascii.eqb a "e" || Ascii.eqb a "E"
  | "" => false
  end.

Definition number (s : string) : option (Z * string) :=
  match s with
  | String a _ =>
      match digit_val a with
      | Some _ =>
          let '(n, r) := digits 0 s in
          if float_mark r then None else Some (n, r)
      | None => None
      end
  | "" => None
  end.

(** The characters up to the closing quote. *)
Fixpoint chars (s : string) : option (string * string) :=
  match s with
  | "" => None
  | String a s' =>
      if Ascii.eqb a dquote then Some ("", s')
      else if Ascii.eqb a "\" then None
      else match chars s' with
           | Some (t, r) => Some (String a t, r)
           | None => None
           end
  end.

Definition literal (word : string) (v : json) (s : string)
  : option (json * string) :=
  if Str.startswith s word
  then Some (v, String.substring (String.length word)
                  (String.length s - String.length word) s)
  else None.

Fixpoint value (fuel : nat) (s : string) : option (json * string) :=
  match fuel with
  | O => None
  | S fuel =>
      match skip_ws s with
      | "" => None
      | String a r as s0 =>
          if Ascii.eqb a "n" then literal "null" JNull s0
          else if Ascii.eqb a "t" then literal "true" (JBool true) s0
          else if Ascii.eqb a "f" then literal "false" (JBool false) s0
          else if Ascii.eqb a dquote then
            match chars r with
            | Some (t, r') => Some (JStr t, r')
            | None => None
            end
          else if Ascii.eqb a "[" then
            match skip_ws r with
            | String "]" r' => Some (JArr [], r')
            | _ => elements fuel [] r
            end
          else if Ascii.eqb a "{" then
            match skip_ws r with
            | String "}" r' => Some (JObj ∅, r')
            | _ => members fuel ∅ r
            end
          else if Ascii.eqb a "-" then
            match number r with
            | Some (n, r') => Some (JInt (- n), r')
            | None => None
            end
          else
            match number s0 with
            | Some (n, r') => Some (JInt n, r')
            | None => None
            end
      end
  end
with elements (fuel : nat) (acc : list json) (s : string)
  : option (json * string) :=
  match fuel with
  | O => None
  | S fuel =>
      match value fuel s with
      | Some (v, r) =>
          match skip_ws r with
          | String "," r' => elements fuel (acc ++ [v]) r'
          | String "]" r' => Some (JArr (acc ++ [v]), r')
          | _ => None
          end
      | None => None
      end
  end
with members (fuel : nat) (acc : dict) (s : string)
  : option (json * string) :=
  match fuel with
  | O => None
  | S fuel =>
      match skip_ws s with
      | String "034"%char r =>
          match chars r with
          | Some (k, r1) =>
              match skip_ws r1 with
              | String ":" r2 =>
                  match value fuel r2 with
                  | Some (v, r3) =>
                      match skip_ws r3 with
                      | String "," r4 => members fuel (<[k := v]> acc) r4
                      | String "}" r4 => Some (JObj (<[k := v]> acc), r4)
                      | _ => None
                      end
                  | None => None
                  end
              | _ => None
              end
          | None => None
          end
      | _ => None
      end
  end.

Definition loads (s : string) : option json :=
  match value (S (String.length s)) s with
  | Some (v, r) => match skip_ws r with "" => Some v | _ => None end
  | None => None
  end.

End JsonText.


(** ** UUID.UUIDGenerator

    The module [UUID.py] is imported by async.py and is not among the
    sources; what follows is a model of the generator the spec describes,
    with the vocabulary to state that its result has UUID syntax. *)

Module UUID.

Definition hex_lower (d : N) : ascii :=
  if (d <? 10)%N then ascii_of_N (48 + d) else ascii_of_N (87 + d).

(** The [n] low hexadecimal digits of [e], most significant first. *)
Fixpoint hex_digits (n : nat) (e : N) : string :=
  match n with
  | O => ""
  | S n' => hex_digits n' (e / 16) +:+ String (hex_lower (e mod 16)) ""
  end.

(** The 8-4-4-4-12 grouping of 32 digits, and its inverse. *)
Definition group (h : string) : string :=
  String.substring 0 8 h +:+ "-" +:+ String.substring 8 4 h +:+ "-"
  +:+ String.substring 12 4 h +:+ "-" +:+ String.substring 16 4 h +:+ "-"
  +:+ String.substring 20 12 h.

Definition ungroup (s : string) : string :=
  String.substring 0 8 s +:+ String.substring 9 4 s
  +:+ String.substring 14 4 s +:+ String.substring 19 4 s
  +:+ String.substring 24 12 s.

(** Modelled from the spec: [UUIDGenerator.create] of the module [UUID.py],
    which async.py imports and which is not among the sources.  The spec
    describes its result as a randomly generated UUID-like string, globally
    unique with overwhelming probability, and a syntactically valid UUID.
    Here the generator draws 128 random bits [e] and writes them as 32
    hexadecimal digits in the groups 8-4-4-4-12. *)
Definition create (e : N) : string := group (hex_digits 32 e).

Definition hex_val (a : ascii) : option N :=
  let n := N_of_ascii a in
  if ((48 <=? n) && (n <=? 57))%N then Some (n - 48)%N
  else if ((97 <=? n) && (n <=? 102))%N then Some (n - 87)%N
  else if ((65 <=? n) && (n <=? 70))%N then Some (n - 55)%N
  else None.

Definition is_hex (a : ascii) : bool :=
  match hex_val a with Some _ => true | None => false end.

(** The syntax of a UUID: 36 characters, hyphens at the offsets 8, 13, 18
    and 23, hexadecimal digits elsewhere. *)
Fixpoint uuid_shape (i : nat) (s : string) : bool :=
  match s with
  | "" => Nat.eqb i 36
  | String a s' =>
      (if Nat.eqb i 8 || Nat.eqb i 13 || Nat.eqb i 18 || Nat.eqb i 23
       then Ascii.eqb a "-" else is_hex a)
      && uuid_shape (S i) s'
  end.

Definition is_uuid (s : string) : bool := uuid_shape 0 s.

(** The number a string of hexadecimal digits and hyphens stands for. *)
Fixpoint hex_value (acc : N) (s : string) : N :=
  match s with
  | "" => acc
  | String a s' =>
      match hex_val a with
      | Some d => hex_value (16 * acc + d) s'
      | None => hex_value acc s'
      end
  end.

End UUID.

(** ** The world the client runs in *)

Definition loc := positive.

Inductive Method := GET | POST | PUT | DELETE.

Definition method_name (m : Method) : string :=
  match m with
  | GET => "GET" | POST => "POST" | PUT => "PUT" | DELETE => "DELETE"
  end.

(** What [session.get/post/put/delete] puts on the wire. *)
Record Request := mkRequest {
  req_method : Method;
  req_url : string;
  req_json : option dict
}.

(** The part of [aiohttp.ClientResponse] the client reads. *)
Record Response := mkResponse {
  status : Z;
  text : string
}.

Inductive Exn :=
| ValueError (msg : string)
| ClientError (detail : string)
| JSONDecodeError
| UnboundReference (l : loc).

Inductive outcome (A : Type) :=
| Returned (a : A)
| Raised (e : Exn).
Arguments Returned {A} a.
Arguments Raised {A} e.

(** The instance attributes set by [__init__]. *)
Record AsyncCroutonClient := mkClient {
  API_ROOT : string;
  ACCESS_STRING : option string
}.

Record World := mkWorld {
  client : AsyncCroutonClient;   (* the object [self] refers to *)
  dicts : gmap loc dict;         (* the dictionaries callers hold *)
  drawn : nat;                   (* random draws consumed so far *)
  wire : list Request;           (* requests issued so far, oldest first *)
  sessions : nat                 (* [ClientSession]s currently open *)
}.

Definition set_dicts (f : gmap loc dict -> gmap loc dict) (w : World) : World :=
  mkWorld (client w) (f (dicts w)) (drawn w) (wire w) (sessions w).
Definition set_drawn (f : nat -> nat) (w : World) : World :=
  mkWorld (client w) (dicts w) (f (drawn w)) (wire w) (sessions w).
Definition set_wire (f : list Request -> list Request) (w : World) : World :=
  mkWorld (client w) (dicts w) (drawn w) (f (wire w)) (sessions w).
Definition set_sessions (f : nat -> nat) (w : World) : World :=
  mkWorld (client w) (dicts w) (drawn w) (wire w) (f (sessions w)).

(** Coroutines: a state transformer that returns or raises. *)
Definition Aio (A : Type) : Type := World -> outcome A * World.

Definition aio_ret {A} (a : A) : Aio A := fun w => (Returned a, w).

Definition aio_bind {A B} (m : Aio A) (k : A -> Aio B) : Aio B :=
  fun w =>
    match m w with
    | (Returned a, w') => k a w'
    | (Raised e, w') => (Raised e, w')
    end.

Definition raise {A} (e : Exn) : Aio A := fun w => (Raised e, w).

Definition reads {A} (f : World -> A) : Aio A := fun w => (Returned (f w), w).

Definition update (f : World -> World) : Aio unit :=
  fun w => (Returned tt, f w).

Declare Scope aio_scope.
Delimit Scope aio_scope with aio.
Notation "'await' x <- m ; k" := (aio_bind m (fun x => k))
  (at level 10, x name, m at level 100, k at level 200) : aio_scope.
Notation "'perform' m ; k" := (aio_bind m (fun _ => k))
  (at level 10, m at level 100, k at level 200) : aio_scope.
Local Open Scope aio_scope.

(** [async with aiohttp.ClientSession() as session: body]: the session is
    closed when the body returns and when it raises. *)
Definition with_session {A} (body : Aio A) : Aio A :=
  fun w =>
    let '(o, w') := body (set_sessions S w) in
    (o, set_sessions Nat.pred w').

(** [key in d] for the dictionary a reference points to. *)
Definition dict_contains (d : loc) (key : string) : Aio bool :=
  fun w =>
    match dicts w !! d with
    | Some m => (Returned (bool_decide (is_Some (m !! key))), w)
    | None => (Raised (UnboundReference d), w)
    end.

(** [d[key] = v], in place. *)
Definition dict_setitem (d : loc) (key : string) (v : json) : Aio unit :=
  fun w =>
    match dicts w !! d with
    | Some m => (Returned tt, set_dicts (<[d := <[key := v]> m]>) w)
    | None => (Raised (UnboundReference d), w)
    end.

(** The contents of a dictionary at the moment it is serialised. *)
Definition dict_read (d : loc) : Aio dict :=
  fun w =>
    match dicts w !! d with
    | Some m => (Returned m, w)
    | None => (Raised (UnboundReference d), w)
    end.

(** ** AsyncCroutonClient *)

Definition __init__ (api_root : string) (access_string : option string)
  : AsyncCroutonClient :=
  {| API_ROOT := Str.rstrip "/" api_root;
     ACCESS_STRING := access_string |}.

(** [bool(query_params)]: a mapping that is present and not empty. *)
Definition has_params (query_params : option (list (string * string))) : bool :=
  match query_params with
  | Some (_ :: _) => true
  | _ => false
  end.

Definition _build_url (self : AsyncCroutonClient) (resource : string)
    (item_id : option string)
    (query_params : option (list (string * string))) : string :=
  let url := API_ROOT self +:+ "/" +:+ Str.strip "/" resource in
  let url :=
    if Str.truthy item_id
    then url +:+ "/" +:+ default "" item_id
    else url in
  let url :=
    if has_params query_params
    then
      let query_string := Urllib.urlencode (default [] query_params) in
      url +:+ "?" +:+ query_string
    else url in
  let url :=
    if Str.truthy (ACCESS_STRING self)
    then
      let separator := if Str.contains url "?" then "&" else "?" in
      url +:+ separator +:+ "token="
          +:+ Str.strip "?" (default "" (ACCESS_STRING self))
    else url in
  url.

(** [{filter_key: filter_value} if filter_key and filter_value else None] *)
Definition filter_params (filter_key filter_value : option string)
  : option (list (string * string)) :=
  match filter_key, filter_value with
  | Some k, Some v =>
      if Str.nonempty k && Str.nonempty v then Some [(k, v)] else None
  | _, _ => None
  end.

Section Operations.

(** The server behind the transport: given the requests seen so far and the
    next one, it answers or the transport fails. *)
Variable backend : list Request -> Request -> Exn + Response.

(** [res.json()] of the HTTP library: the decoded body, or the failure it
    raises. *)
Variable res_json : Response -> Exn + json.

(** The random source: the 128 bits of the n-th draw. *)
Variable entropy : nat -> N.

(** [session.get(url)], [session.post(url, json=...)] and the like: one
    round trip. *)
Definition request (m : Method) (url : string) (body : option dict)
  : Aio Response :=
  fun w =>
    let rq := mkRequest m url body in
    match backend (wire w) rq with
    | inr res => (Returned res, set_wire (fun l => (l ++ [rq])%list) w)
    | inl e => (Raised e, set_wire (fun l => (l ++ [rq])%list) w)
    end.

Definition json_of (res : Response) : Aio json :=
  match res_json res with
  | inr v => aio_ret v
  | inl e => raise e
  end.

(** [UUIDGenerator().create()] *)
Definition UUIDGenerator_create : Aio string :=
  fun w => (Returned (UUID.create (entropy (drawn w))), set_drawn S w).

Definition get (resource : string) (item_id : option string)
    (filter_key : option string) (filter_value : option string) : Aio json :=
  let query_params := filter_params filter_key filter_value in
  await self <- reads client;
  let url := _build_url self resource item_id query_params in
  with_session (
    await res <- request GET url None;
    if (status res =? 200)%Z
    then json_of res
    else
      let error_content := text res in
      raise (ValueError ("GET request failed with status "
                         +:+ Str.str_int (status res) +:+ ": "
                         +:+ error_content))).

Definition post (resource : string) (data_obj : loc) : Aio json :=
  await has_id <- dict_contains data_obj "id";
  perform (if negb has_id
           then await fresh <- UUIDGenerator_create;
                dict_setitem data_obj "id" (JStr fresh)
           else aio_ret tt);
  await self <- reads client;
  let url := _build_url self resource None None in
  with_session (
    await body <- dict_read data_obj;
    await res <- request POST url (Some body);
    if (status res =? 200)%Z
    then json_of res
    else
      let error_content := text res in
      raise (ValueError ("POST request failed with status "
                         +:+ Str.str_int (status res) +:+ ": "
                         +:+ error_content))).

Definition put (resource : string) (data_obj : loc)
    (item_id : option string) : Aio json :=
  await self <- reads client;
  let url := _build_url self resource item_id None in
  with_session (
    await body <- dict_read data_obj;
    await res <- request PUT url (Some body);
    if (status res =? 200)%Z
    then json_of res
    else
      let error_content := text res in
      raise (ValueError ("PUT request failed with status "
                         +:+ Str.str_int (status res) +:+ ": "
                         +:+ error_content))).

Definition delete (resource : string) (item_id : option string) : Aio json :=
  await self <- reads client;
  let url := _build_url self resource item_id None in
  with_session (
    await res <- request DELETE url None;
    if (status res =? 200)%Z
    then json_of res
    else
      let error_content := text res in
      raise (ValueError ("DELETE request failed with status "
                         +:+ Str.str_int (status res) +:+ ": "
                         +:+ error_content))).

End Operations.

(** ** Fixtures for the examples *)

(** A response decoder that reads the body with [JsonText.loads]. *)
Definition json_body (res : Response) : Exn + json :=
  match JsonText.loads (text res) with
  | Some v => inr v
  | None => inl JSONDecodeError
  end.

(** A mocked backend that answers every request with [res]. *)
Definition mock (res : Response) : list Request -> Request -> Exn + Response :=
  fun _ _ => inr res.

(** A mocked transport that always fails to connect. *)
Definition unreachable : list Request -> Request -> Exn + Response :=
  fun _ _ => inl (ClientError "connection refused").

Definition seed (n : nat) : N :=
  (0x6ba7b8109dad11d180b400c04fd430c8 + N.of_nat n)%N.

(** A world with one client and one caller-held dictionary [{name: "x"}]. *)
Definition demo_world (c : AsyncCroutonClient) : World :=
  mkWorld c {[ 1%positive := {[ "name" := JStr "x" ]} ]} 0 [] 0.

(** The body [{"a":1}]. *)
Definition body_a1 : string :=
  "{" +:+ String JsonText.dquote "a" +:+ String JsonText.dquote ":1}".

(** The alphabet of a percent-encoded component. *)
Definition url_char (a : ascii) : bool :=
  Urllib.always_safe a || Ascii.eqb a "+" || Ascii.eqb a "%" || UUID.is_hex a.

(** The world an operation leaves behind after putting [rq] on the wire. *)
Definition sent (rq : Request) (w : World) : World :=
  mkWorld (client w) (dicts w) (drawn w) (wire w ++ [rq])%list (sessions w).

(** What an operation yields for the response [res] to method [m]. *)
Definition respond (res_json : Response -> Exn + json) (m : Method)
    (res : Response) : outcome json :=
  if (status res =? 200)%Z
  then match res_json res with inr v => Returned v | inl e => Raised e end
  else Raised (ValueError (method_name m +:+ " request failed with status "
                           +:+ Str.str_int (status res) +:+ ": "
                           +:+ text res)).

(** What an operation yields for the transport's answer. *)
Definition settle (res_json : Response -> Exn + json) (m : Method)
    (answer : Exn + Response) : outcome json :=
  match answer with
  | inr res => respond res_json m res
  | inl e => Raised e
  end.

(** ** The four operations as one family

    A [Call] names an operation with its arguments, so that a property of
    every operation is a property of [invoke]. *)

Inductive Call :=
| Get (resource : string) (item_id filter_key filter_value : option string)
| Post (resource : string) (data_obj : loc)
| Put (resource : string) (data_obj : loc) (item_id : option string)
| Delete (resource : string) (item_id : option string).

Definition method_of (c : Call) : Method :=
  match c with
  | Get _ _ _ _ => GET
  | Post _ _ => POST
  | Put _ _ _ => PUT
  | Delete _ _ => DELETE
  end.

Section Family.

Variable backend : list Request -> Request -> Exn + Response.
Variable res_json : Response -> Exn + json.
Variable entropy : nat -> N.

Definition invoke (c : Call) : Aio json :=
  match c with
  | Get resource item_id filter_key filter_value =>
      get backend res_json resource item_id filter_key filter_value
  | Post resource data_obj =>
      post backend res_json entropy resource data_obj
  | Put resource data_obj item_id =>
      put backend res_json resource data_obj item_id
  | Delete resource item_id =>
      delete backend res_json resource item_id
  end.

(** The dictionary [post] sends for the caller's dictionary [m]. *)
Definition stamp (w : World) (m : dict) : dict :=
  match m !! "id" with
  | Some _ => m
  | None => <["id" := JStr (UUID.create (entropy (drawn w)))]> m
  end.

(** The request a call issues from the world [w]; none when the call holds
    a reference that is not in the store. *)
Definition issued (c : Call) (w : World) : option Request :=
  match c with
  | Get resource item_id filter_key filter_value =>
      Some (mkRequest GET
              (_build_url (client w) resource item_id
                 (filter_params filter_key filter_value)) None)
  | Post resource data_obj =>
      match dicts w !! data_obj with
      | Some m =>
          Some (mkRequest POST (_build_url (client w) resource None None)
                  (Some (stamp w m)))
      | None => None
      end
  | Put resource data_obj item_id =>
      match dicts w !! data_obj with
      | Some m =>
          Some (mkRequest PUT (_build_url (client w) resource item_id None)
                  (Some m))
      | None => None
      end
  | Delete resource item_id =>
      Some (mkRequest DELETE (_build_url (client w) resource item_id None)
              None)
  end.

(** The world after the writes a call makes before it issues its request. *)
Definition touched (c : Call) (w : World) : World :=
  match c with
  | Post _ data_obj =>
      match dicts w !! data_obj with
      | Some m =>
          match m !! "id" with
          | Some _ => w
          | None =>
              mkWorld (client w) (<[data_obj := stamp w m]> (dicts w))
                (S (drawn w)) (wire w) (sessions w)
          end
      | None => w
      end
  | _ => w
  end.

End Family.

(** The text of the error raised for a response that is not a success. *)
Definition failure_message (m : Method) (res : Response) : string :=
  method_name m +:+ " request failed with status "
  +:+ Str.str_int (status res) +:+ ": " +:+ text res.

(** The URL shape of the spec for a request without filters:
    [<apiRoot>/<resource>[/<itemId>][&|?token=<accessToken>]]. *)
Definition plain_url (self : AsyncCroutonClient) (resource : string)
    (item_id : option string) : string :=
  let path :=
    API_ROOT self +:+ "/" +:+ Str.strip "/" resource
    +:+ (if Str.truthy item_id then "/" +:+ default "" item_id else "") in
  path
  +:+ (if Str.truthy (ACCESS_STRING self)
       then (if Str.contains path "?" then "&" else "?")
            +:+ "token=" +:+ Str.strip "?" (default "" (ACCESS_STRING self))
       else "").

(** A caller that makes the calls of [cs] one after the other, going on
    whatever each of them returns or raises. *)
Fixpoint run_calls (backend : list Request -> Request -> Exn + Response)
    (res_json : Response -> Exn + json) (entropy : nat -> N)
    (cs : list Call) (w : World) : World :=
  match cs with
  | [] => w
  | c :: cs' =>
      run_calls backend res_json entropy cs'
        (snd (invoke backend res_json entropy c w))
  end.

(** The number of [post] calls among [cs]. *)
Fixpoint posts (cs : list Call) : nat :=
  match cs with
  | [] => 0
  | Post _ _ :: cs' => S (posts cs')
  | _ :: cs' => posts cs'
  end.

(** The characters that delimit the parts of a URL and of a query string. *)
Definition delimiters : list ascii :=
  ["&"; "="; "?"; "#"; "/"; " "]%char.

(** The number the digits of [d] denote, continuing from [acc]. *)
Fixpoint uint_value (acc : Z) (d : Decimal.uint) : Z :=
  match d with
  | Decimal.Nil => acc
  | Decimal.D0 d' => uint_value (10 * acc) d'
  | Decimal.D1 d' => uint_value (10 * acc + 1) d'
  | Decimal.D2 d' => uint_value (10 * acc + 2) d'
  | Decimal.D3 d' => uint_value (10 * acc + 3) d'
  | Decimal.D4 d' => uint_value (10 * acc + 4) d'
  | Decimal.D5 d' => uint_value (10 * acc + 5) d'
  | Decimal.D6 d' => uint_value (10 * acc + 6) d'
  | Decimal.D7 d' => uint_value (10 * acc + 7) d'
  | Decimal.D8 d' => uint_value (10 * acc + 8) d'
  | Decimal.D9 d' => uint_value (10 * acc + 9) d'
  end.

(* ================================================================== *)
(** * Properties *)

Example strip_ex : Str.strip "/" "//users/7//" = "users/7".
Proof. reflexivity. Qed.

Example rstrip_ex : Str.rstrip "/" "http://h/api//" = "http://h/api".
Proof. reflexivity. Qed.

Example str_int_ex : Str.str_int 404 = "404".
Proof. reflexivity. Qed.

Example urlencode_ex :
  Urllib.urlencode [("a b", "x&y/~"); ("k", "v")] = "a+b=x%26y%2F~&k=v".
Proof. reflexivity. Qed.

Example loads_ex : JsonText.loads body_a1 = Some (JObj {["a" := JInt 1]}).
Proof. vm_compute. reflexivity. Qed.

Example loads_array :
  JsonText.loads " [1, -2, true, null, {}] "
  = Some (JArr [JInt 1; JInt (-2); JBool true; JNull; JObj ∅]).
Proof. vm_compute. reflexivity. Qed.

Example loads_text : JsonText.loads "not found" = None.
Proof. vm_compute. reflexivity. Qed.

Example build_url_ex :
  _build_url (__init__ "http://api.test/v1/" (Some "?abc123"))
    "/users/" (Some "7") (Some [("status", "open"); ("q", "a b")])
  = "http://api.test/v1/users/7?status=open&q=a+b&token=abc123".
Proof. reflexivity. Qed.

Example build_url_bare_ex :
  _build_url (__init__ "http://api.test/v1" None) "users" (Some "") (Some [])
  = "http://api.test/v1/users".
Proof. reflexivity. Qed.

Example get_404_ex :
  fst (get (mock (mkResponse 404 "not found")) json_body
         "items" (Some "9") None None
         (demo_world (__init__ "http://api.test/v1/" None)))
  = Raised (ValueError "GET request failed with status 404: not found").
Proof. vm_compute. reflexivity. Qed.

Example create_ex :
  UUID.create (seed 0) = "6ba7b810-9dad-11d1-80b4-00c04fd430c8".
Proof. vm_compute. reflexivity. Qed.

(** ** Strings *)

Lemma str_app_cons (a : ascii) (s t : string) :
  String a s +:+ t = String a (s +:+ t).
Proof. reflexivity. Qed.

Lemma str_app_nil_l (s : string) : "" +:+ s = s.
Proof. reflexivity. Qed.

Lemma str_app_nil_r (s : string) : s +:+ "" = s.
Proof.
  induction s as [|a s IH]; [reflexivity | now rewrite str_app_cons, IH].
Qed.

Lemma str_app_assoc (s t u : string) : (s +:+ t) +:+ u = s +:+ t +:+ u.
Proof.
  induction s as [|a s IH]; [reflexivity | now rewrite !str_app_cons, IH].
Qed.

Lemma eqb_false_ne (a c : ascii) : Some a <> Some c -> Ascii.eqb a c = false.
Proof.
  intros H. destruct (Ascii.eqb_spec a c) as [->|]; [now destruct H | reflexivity].
Qed.

Lemma head_app (s t : string) :
  s <> "" -> Str.head (s +:+ t) = Str.head s.
Proof. destruct s; [congruence | reflexivity]. Qed.

Lemma lstrip_replicate_only (c : ascii) (n : nat) :
  Str.lstrip c (Str.replicate n c) = "".
Proof.
  induction n as [|n IH]; [reflexivity|].
  cbn [Str.replicate Str.lstrip]. now rewrite Ascii.eqb_refl.
Qed.

Lemma lstrip_replicate (c : ascii) (n : nat) (s : string) :
  Str.head s <> Some c -> Str.lstrip c (Str.replicate n c +:+ s) = s.
Proof.
  intros H. induction n as [|n IH].
  - destruct s as [|a s]; [reflexivity|].
    cbn [Str.head] in H. cbn [Str.replicate]. rewrite str_app_nil_l.
    cbn [Str.lstrip]. now rewrite eqb_false_ne.
  - cbn [Str.replicate]. rewrite str_app_cons. cbn [Str.lstrip].
    now rewrite Ascii.eqb_refl.
Qed.

Lemma rstrip_replicate_only (c : ascii) (n : nat) :
  Str.rstrip c (Str.replicate n c) = "".
Proof.
  induction n as [|n IH]; [reflexivity|].
  cbn [Str.replicate Str.rstrip]. now rewrite IH, Ascii.eqb_refl.
Qed.

Lemma rstrip_replicate (c : ascii) (n : nat) (s : string) :
  Str.last s <> Some c -> Str.rstrip c (s +:+ Str.replicate n c) = s.
Proof.
  induction s as [|a s IH]; intros H.
  - apply rstrip_replicate_only.
  - rewrite str_app_cons. cbn [Str.rstrip].
    destruct s as [|b s].
    + rewrite str_app_nil_l, rstrip_replicate_only. cbn [Str.last] in H.
      now rewrite eqb_false_ne.
    + rewrite IH; [reflexivity|]. exact H.
Qed.

Lemma rstrip_last (c : ascii) (s : string) :
  Str.last (Str.rstrip c s) <> Some c.
Proof.
  induction s as [|a s IH]; [discriminate|].
  cbn [Str.rstrip]. destruct (Str.rstrip c s) as [|b r] eqn:E.
  - destruct (Ascii.eqb_spec a c) as [->|Hne]; cbn [Str.last]; congruence.
  - exact IH.
Qed.

Lemma strip_replicate (c : ascii) (i j : nat) (s : string) :
  Str.head s <> Some c -> Str.last s <> Some c ->
  Str.strip c (Str.replicate i c +:+ s +:+ Str.replicate j c) = s.
Proof.
  intros Hh Hl. unfold Str.strip. destruct s as [|a s].
  - rewrite str_app_nil_l.
    assert (E : forall t, Str.lstrip c t = "" ->
                Str.lstrip c (Str.replicate i c +:+ t) = "").
    { intros t Ht. induction i as [|i IH]; [exact Ht|].
      cbn [Str.replicate]. rewrite str_app_cons. cbn [Str.lstrip].
      now rewrite Ascii.eqb_refl. }
    now rewrite E by apply lstrip_replicate_only.
  - rewrite lstrip_replicate.
    + now apply rstrip_replicate.
    + rewrite head_app; [exact Hh | discriminate].
Qed.

Lemma startswith_nil (s : string) : Str.startswith s "" = true.
Proof. now destruct s. Qed.

Lemma startswith_app (t b : string) : Str.startswith (t +:+ b) t = true.
Proof.
  induction t as [|a t IH]; [apply startswith_nil|].
  rewrite str_app_cons. cbn [Str.startswith]. now rewrite Ascii.eqb_refl, IH.
Qed.

Lemma contains_app_mid (a t b : string) :
  Str.contains (a +:+ t +:+ b) t = true.
Proof.
  induction a as [|x a IH].
  - rewrite str_app_nil_l.
    destruct (t +:+ b) eqn:E; cbn [Str.contains];
      rewrite <- ?E, startswith_app; reflexivity.
  - rewrite str_app_cons. cbn [Str.contains]. rewrite IH. apply orb_true_r.
Qed.

Lemma contains_app_r (s u t : string) :
  Str.contains u t = true -> Str.contains (s +:+ u) t = true.
Proof.
  intros H. induction s as [|a s IH]; [exact H|].
  rewrite str_app_cons. cbn [Str.contains]. rewrite IH. apply orb_true_r.
Qed.

Lemma contains_prefix (t b : string) : Str.contains (t +:+ b) t = true.
Proof. apply (contains_app_mid "" t b). Qed.

Lemma contains_self (t : string) : Str.contains t t = true.
Proof. rewrite <- (str_app_nil_r t) at 1. apply contains_prefix. Qed.

Lemma contains_char_app (c : ascii) (s t : string) :
  Str.contains (s +:+ t) (String c "")
  = Str.contains s (String c "") || Str.contains t (String c "").
Proof.
  induction s as [|a s IH]; [reflexivity|].
  rewrite str_app_cons. cbn [Str.contains Str.startswith].
  rewrite IH, !startswith_nil. now rewrite orb_assoc.
Qed.

Lemma all_chars_app (p : ascii -> bool) (s t : string) :
  Str.all_chars p (s +:+ t) = Str.all_chars p s && Str.all_chars p t.
Proof.
  induction s as [|a s IH]; [reflexivity|].
  rewrite str_app_cons. cbn [Str.all_chars]. now rewrite IH, andb_assoc.
Qed.

(** ** Percent-encoding *)

Lemma always_safe_url_char (a : ascii) :
  Urllib.always_safe a = true -> url_char a = true.
Proof. intros H. unfold url_char. now rewrite H. Qed.

Lemma percent_url_chars (a : ascii) :
  Str.all_chars url_char (Urllib.percent a) = true.
Proof. destruct a as [[] [] [] [] [] [] [] []]; vm_compute; reflexivity. Qed.

Lemma quote_plus_url_chars (s : string) :
  Str.all_chars url_char (Urllib.quote_plus s) = true.
Proof.
  induction s as [|a s IH]; [reflexivity|].
  cbn [Urllib.quote_plus]. rewrite all_chars_app, IH, andb_true_r.
  destruct (Urllib.always_safe a) eqn:Hs.
  - cbn [Str.all_chars]. now rewrite always_safe_url_char.
  - destruct (Ascii.eqb a " "); [reflexivity | apply percent_url_chars].
Qed.


(** ** One round trip of each operation *)

Section Runs.

Variable backend : list Request -> Request -> Exn + Response.
Variable res_json : Response -> Exn + json.
Variable entropy : nat -> N.

Lemma round_trip (m : Method) (url : string) (body : option dict) (w : World) :
  with_session (
    await res <- request backend m url body;
    if (status res =? 200)%Z
    then json_of res_json res
    else raise (ValueError (method_name m +:+ " request failed with status "
                            +:+ Str.str_int (status res) +:+ ": "
                            +:+ text res))) w
  = (settle res_json m (backend (wire w) (mkRequest m url body)),
     sent (mkRequest m url body) w).
Proof.
  unfold with_session, aio_bind, request, settle, respond, sent.
  cbn. destruct (backend (wire w) (mkRequest m url body)) as [e|res]; cbn.
  - reflexivity.
  - destruct (status res =? 200)%Z; [|reflexivity].
    unfold json_of. now destruct (res_json res).
Qed.

Lemma get_run resource item_id filter_key filter_value (w : World) :
  get backend res_json resource item_id filter_key filter_value w
  = let rq := mkRequest GET
                (_build_url (client w) resource item_id
                   (filter_params filter_key filter_value)) None in
    (settle res_json GET (backend (wire w) rq), sent rq w).
Proof.
  unfold get. unfold aio_bind at 1. unfold reads.
  exact (round_trip GET _ None w).
Qed.

Lemma delete_run resource item_id (w : World) :
  delete backend res_json resource item_id w
  = let rq := mkRequest DELETE
                (_build_url (client w) resource item_id None) None in
    (settle res_json DELETE (backend (wire w) rq), sent rq w).
Proof.
  unfold delete. unfold aio_bind at 1. unfold reads.
  exact (round_trip DELETE _ None w).
Qed.

Lemma put_run resource (data_obj : loc) item_id (w : World) (m : dict) :
  dicts w !! data_obj = Some m ->
  put backend res_json resource data_obj item_id w
  = let rq := mkRequest PUT
                (_build_url (client w) resource item_id None) (Some m) in
    (settle res_json PUT (backend (wire w) rq), sent rq w).
Proof.
  intros Hm. unfold put. unfold aio_bind at 1. unfold reads.
  rewrite <- (round_trip PUT _ (Some m) w).
  unfold with_session, aio_bind, dict_read. cbn. now rewrite Hm.
Qed.

Lemma put_unbound resource (data_obj : loc) item_id (w : World) :
  dicts w !! data_obj = None ->
  put backend res_json resource data_obj item_id w
  = (Raised (UnboundReference data_obj), w).
Proof.
  intros Hm. unfold put, with_session, aio_bind, reads, dict_read. cbn.
  rewrite Hm. now destruct w.
Qed.

Lemma post_run_given resource (data_obj : loc) (w : World) (m : dict) :
  dicts w !! data_obj = Some m -> is_Some (m !! "id") ->
  post backend res_json entropy resource data_obj w
  = let rq := mkRequest POST
                (_build_url (client w) resource None None) (Some m) in
    (settle res_json POST (backend (wire w) rq), sent rq w).
Proof.
  intros Hm Hid. unfold post.
  unfold aio_bind at 1. unfold dict_contains. rewrite Hm.
  rewrite bool_decide_eq_true_2 by exact Hid. cbn [negb].
  unfold aio_bind at 1. unfold aio_ret.
  unfold aio_bind at 1. unfold reads.
  rewrite <- (round_trip POST _ (Some m) w).
  unfold with_session, aio_bind, dict_read. cbn. now rewrite Hm.
Qed.

Lemma post_run_fresh resource (data_obj : loc) (w : World) (m : dict) :
  dicts w !! data_obj = Some m -> m !! "id" = None ->
  post backend res_json entropy resource data_obj w
  = let m' := <["id" := JStr (UUID.create (entropy (drawn w)))]> m in
    let w' := mkWorld (client w) (<[data_obj := m']> (dicts w))
                (S (drawn w)) (wire w) (sessions w) in
    let rq := mkRequest POST
                (_build_url (client w) resource None None) (Some m') in
    (settle res_json POST (backend (wire w) rq), sent rq w').
Proof.
  intros Hm Hid. unfold post.
  unfold aio_bind at 1. unfold dict_contains. rewrite Hm.
  rewrite bool_decide_eq_false_2 by (rewrite Hid; apply is_Some_None).
  cbn [negb].
  unfold aio_bind at 1. unfold aio_bind at 1.
  unfold UUIDGenerator_create, dict_setitem. cbn. rewrite Hm.
  unfold aio_bind at 1. unfold reads. cbn.
  match goal with
  | |- with_session _ ?w1 = _ =>
      rewrite <- (round_trip POST
        (_build_url (client w) resource None None)
        (Some (<["id" := JStr (UUID.create (entropy (drawn w)))]> m)) w1)
  end.
  unfold with_session, aio_bind, dict_read. cbn.
  now rewrite lookup_insert_eq.
Qed.

Lemma post_unbound resource (data_obj : loc) (w : World) :
  dicts w !! data_obj = None ->
  post backend res_json entropy resource data_obj w
  = (Raised (UnboundReference data_obj), w).
Proof.
  intros Hm. unfold post, aio_bind, dict_contains. now rewrite Hm.
Qed.

End Runs.

Section Invoke.

Variable backend : list Request -> Request -> Exn + Response.
Variable res_json : Response -> Exn + json.
Variable entropy : nat -> N.

Lemma invoke_run (c : Call) (w : World) (rq : Request) :
  issued entropy c w = Some rq ->
  invoke backend res_json entropy c w
  = (settle res_json (method_of c) (backend (wire w) rq),
     sent rq (touched entropy c w)).
Proof.
  destruct c as [r i fk fv | r d | r d i | r i]; cbn [issued invoke touched method_of].
  - intros [= <-]. apply get_run.
  - destruct (dicts w !! d) as [m|] eqn:Hm; [|discriminate].
    intros [= <-]. unfold stamp.
    destruct (m !! "id") as [v|] eqn:Hid.
    + apply post_run_given; [exact Hm | rewrite Hid; eauto].
    + now apply post_run_fresh.
  - destruct (dicts w !! d) as [m|] eqn:Hm; [|discriminate].
    intros [= <-]. now apply put_run.
  - intros [= <-]. apply delete_run.
Qed.

Lemma invoke_unbound (c : Call) (w : World) :
  issued entropy c w = None ->
  exists d, invoke backend res_json entropy c w
            = (Raised (UnboundReference d), w).
Proof.
  destruct c as [r i fk fv | r d | r d i | r i]; cbn [issued invoke];
    try discriminate.
  - destruct (dicts w !! d) eqn:Hm; [discriminate|].
    intros _. exists d. now apply post_unbound.
  - destruct (dicts w !! d) eqn:Hm; [discriminate|].
    intros _. exists d. now apply put_unbound.
Qed.

End Invoke.

(** ** Decimal numerals *)

Lemma read_digits_uint (d : Decimal.uint) (acc : Z) :
  Str.read_digits acc (NilEmpty.string_of_uint d) = Some (uint_value acc d).
Proof.
  revert acc. induction d; intros acc; cbn [NilEmpty.string_of_uint];
    [reflexivity | ..];
    cbn [Str.read_digits uint_value];
    match goal with
    | |- context [Str.digit_of ?a] =>
        change (Str.digit_of a) with (Some (Z.of_N (N_of_ascii a) - 48)%Z)
    end;
    cbn [N_of_ascii N_of_digits]; rewrite <- IHd; f_equal; lia.
Qed.

Lemma uint_value_acc (d : Decimal.uint) (acc : positive) :
  uint_value (Zpos acc) d = Zpos (Pos.of_uint_acc d acc).
Proof.
  revert acc. induction d; intros acc; cbn [uint_value Pos.of_uint_acc];
    [reflexivity | ..]; rewrite <- IHd; f_equal; lia.
Qed.

Lemma uint_value_of_uint (d : Decimal.uint) :
  uint_value 0 d = Z.of_N (Pos.of_uint d).
Proof.
  induction d; cbn [uint_value Pos.of_uint]; [reflexivity | exact IHd | ..];
    cbn [Z.mul Z.add Z.of_N]; apply uint_value_acc.
Qed.

Lemma uint_value_to_uint (p : positive) :
  uint_value 0 (Pos.to_uint p) = Zpos p.
Proof.
  now rewrite uint_value_of_uint, DecimalPos.Unsigned.of_to.
Qed.

Lemma string_of_uint_head (d : Decimal.uint) :
  d <> Decimal.Nil ->
  exists a r, NilEmpty.string_of_uint d = String a r /\ Ascii.eqb a "-" = false.
Proof.
  destruct d; [congruence | ..]; intros _; cbn [NilEmpty.string_of_uint];
    eexists; eexists; (split; [reflexivity | reflexivity]).
Qed.

Lemma str_int_pos (p : positive) :
  Str.str_int (Zpos p) = NilEmpty.string_of_uint (Pos.to_uint p).
Proof.
  unfold Str.str_int. cbn [Z.to_int NilZero.string_of_int].
  pose proof (DecimalPos.Unsigned.to_uint_nonnil p) as H.
  unfold NilZero.string_of_uint. now destruct (Pos.to_uint p).
Qed.

Lemma read_int_str_int (z : Z) : Str.read_int (Str.str_int z) = Some z.
Proof.
  destruct z as [|p|p].
  - reflexivity.
  - rewrite str_int_pos.
    destruct (string_of_uint_head (Pos.to_uint p)
                (DecimalPos.Unsigned.to_uint_nonnil p)) as (a & r & Hs & Ha).
    unfold Str.read_int. rewrite Hs, Ha, <- Hs.
    now rewrite read_digits_uint, uint_value_to_uint.
  - unfold Str.str_int. cbn [Z.to_int NilZero.string_of_int].
    change (NilZero.string_of_uint (Pos.to_uint p))
      with (Str.str_int (Zpos p)).
    rewrite str_int_pos.
    destruct (string_of_uint_head (Pos.to_uint p)
                (DecimalPos.Unsigned.to_uint_nonnil p)) as (a & r & Hs & Ha).
    unfold Str.read_int. rewrite Ascii.eqb_refl, Hs, <- Hs.
    now rewrite read_digits_uint, uint_value_to_uint.
Qed.

Lemma str_int_inj (m n : Z) : Str.str_int m = Str.str_int n -> m = n.
Proof.
  intros H. apply (f_equal Str.read_int) in H.
  rewrite !read_int_str_int in H. congruence.
Qed.

Lemma nzhead_not_zero_digit (d d' : Decimal.uint) :
  Decimal.nzhead d <> Decimal.D0 d'.
Proof. induction d; cbn [Decimal.nzhead]; congruence. Qed.

Lemma str_int_no_leading_zero (z : Z) :
  (0 < z)%Z -> Str.head (Str.str_int z) <> Some "0"%char.
Proof.
  destruct z as [|p|p]; try lia. intros _. rewrite str_int_pos.
  assert (Hn : Pos.to_uint p = Decimal.unorm (Pos.to_uint p)).
  { rewrite <- DecimalPos.Unsigned.to_of, DecimalPos.Unsigned.of_to.
    reflexivity. }
  pose proof (DecimalPos.Unsigned.to_uint_nonzero p) as Hz.
  remember (Pos.to_uint p) as d eqn:Ed. clear Ed.
  pose proof (nzhead_not_zero_digit d) as Hh.
  unfold Decimal.unorm in Hn.
  destruct (Decimal.nzhead d) as [|d'|d'|d'|d'|d'|d'|d'|d'|d'|d'];
    subst d; cbn [NilEmpty.string_of_uint Str.head];
    try discriminate.
  - now destruct Hz.
  - now destruct (Hh d').
Qed.

(** ** Decoding a percent-encoded component *)



(** ** Response handling *)

Section Responses.

Variable backend : list Request -> Request -> Exn + Response.
Variable res_json : Response -> Exn + json.
Variable entropy : nat -> N.

(** C1.  For every operation, a response whose status is not 200 makes the
    operation raise a [ValueError] whose message is
    [<METHOD> request failed with status <code>: <body>]: it carries the
    HTTP method, the status code and the raw body text.  The code is the
    decimal numeral of the status: read as a number it is the status, and
    it has no leading zero.  A 404 response with body [not found] therefore
    fails [get] with a message that includes [404] and [not found]. *)
Theorem request_failed (c : Call) (w : World) (rq : Request) (res : Response) :
  issued entropy c w = Some rq ->
  backend (wire w) rq = inr res ->
  status res <> 200%Z ->
  let code := Str.str_int (status res) in
  let msg := method_name (method_of c) +:+ " request failed with status "
             +:+ code +:+ ": " +:+ text res in
  fst (invoke backend res_json entropy c w) = Raised (ValueError msg)
  /\ Str.read_int code = Some (status res)
  /\ ((0 < status res)%Z -> Str.head code <> Some "0"%char)
  /\ Str.contains msg (method_name (method_of c)) = true
  /\ Str.contains msg code = true
  /\ Str.contains msg (text res) = true.
Proof.
  intros Hrq Hres Hst code msg.
  split; [|split; [|split; [|split; [|split]]]].
  - rewrite (invoke_run backend res_json entropy c w rq Hrq), Hres.
    cbn [fst settle]. unfold respond.
    destruct (Z.eqb_spec (status res) 200) as [E|_]; [now destruct Hst|].
    reflexivity.
  - apply read_int_str_int.
  - apply str_int_no_leading_zero.
  - apply contains_prefix.
  - do 2 apply contains_app_r. apply contains_prefix.
  - do 4 apply contains_app_r. apply contains_self.
Qed.

(** C2 (amended).  An operation returns [v] exactly when it issued its
    request, the response has status 200, and the response body decodes to
    [v]; so a success needs status 200 and hands back the decoded body
    unchanged, and with status 200 a decoding failure is raised as it is.
    With the body [{"a":1}] and status 200, [get] returns the mapping
    [{a: 1}]. *)
Theorem success_contract :
  (forall (c : Call) (w : World) (v : json),
     fst (invoke backend res_json entropy c w) = Returned v
     <-> exists rq res,
           issued entropy c w = Some rq
           /\ backend (wire w) rq = inr res
           /\ status res = 200%Z
           /\ res_json res = inr v)
  /\ (forall (c : Call) (w : World) (e : Exn),
        (exists rq res,
           issued entropy c w = Some rq
           /\ backend (wire w) rq = inr res
           /\ status res = 200%Z
           /\ res_json res = inl e) ->
        fst (invoke backend res_json entropy c w) = Raised e)
  /\ (forall resource item_id filter_key filter_value (w : World),
        fst (get (mock (mkResponse 200 body_a1)) json_body
               resource item_id filter_key filter_value w)
        = Returned (JObj {["a" := JInt 1]})).
Proof.
  split; [|split].
  - intros c w v. split.
    + intros H. destruct (issued entropy c w) as [rq|] eqn:Hrq.
      * rewrite (invoke_run backend res_json entropy c w rq Hrq) in H.
        cbn [fst] in H. unfold settle, respond in H.
        destruct (backend (wire w) rq) as [e|res] eqn:Hres; [discriminate|].
        destruct (Z.eqb_spec (status res) 200) as [E|_]; [|discriminate].
        destruct (res_json res) as [e|v'] eqn:Hv; [discriminate|].
        injection H as <-. now exists rq, res.
      * destruct (invoke_unbound backend res_json entropy c w Hrq) as [d Hd].
        rewrite Hd in H. discriminate.
    + intros (rq & res & Hrq & Hres & Hst & Hv).
      rewrite (invoke_run backend res_json entropy c w rq Hrq), Hres.
      cbn [fst settle]. unfold respond. now rewrite Hst, Hv.
  - intros c w e (rq & res & Hrq & Hres & Hst & Hv).
    rewrite (invoke_run backend res_json entropy c w rq Hrq), Hres.
    cbn [fst settle]. unfold respond. now rewrite Hst, Hv.
  - intros. rewrite get_run. vm_compute. reflexivity.
Qed.

End Responses.

(** The instance of C1 from the spec: status 404 with body [not found];
    and a 500 answer to [delete]. *)
Lemma request_failed_witness :
  let w := demo_world (__init__ "http://api.test/v1/" None) in
  let msg := "GET request failed with status 404: not found" in
  fst (get (mock (mkResponse 404 "not found")) json_body
         "items" None None None w)
  = Raised (ValueError msg)
  /\ Str.contains msg "GET" = true
  /\ Str.contains msg "404" = true
  /\ Str.contains msg "not found" = true
  /\ Str.read_int "404" = Some 404%Z
  /\ fst (delete (mock (mkResponse 500 "boom")) json_body
            "items" (Some "9") w)
     = Raised (ValueError "DELETE request failed with status 500: boom").
Proof.
  intros w msg.
  destruct (request_failed (mock (mkResponse 404 "not found")) json_body seed
              (Get "items" None None None) w
              (mkRequest GET "http://api.test/v1/items" None)
              (mkResponse 404 "not found")
              eq_refl eq_refl ltac:(discriminate))
    as (H1 & H2 & _ & H4 & H5 & H6).
  destruct (request_failed (mock (mkResponse 500 "boom")) json_body seed
              (Delete "items" (Some "9")) w
              (mkRequest DELETE "http://api.test/v1/items/9" None)
              (mkResponse 500 "boom")
              eq_refl eq_refl ltac:(discriminate))
    as (G1 & _).
  exact (conj H1 (conj H4 (conj H5 (conj H6 (conj H2 G1))))).
Defined.

(** C2 as stated fails: status 200 alone does not make the operation
    succeed.  With status 200 and a body that is not JSON, [get] raises the
    decoding failure and returns nothing. *)
Lemma success_needs_json :
  let res := mkResponse 200 "not json" in
  let w := demo_world (__init__ "http://api.test/v1/" None) in
  let result := fst (get (mock res) json_body "items" None None None w) in
  status res = 200%Z
  /\ result = Raised JSONDecodeError
  /\ ~ (exists v, result = Returned v).
Proof.
  vm_compute. split; [reflexivity | split; [reflexivity|]].
  intros [v Hv]. discriminate.
Qed.

(** ** URL construction *)

Lemma contains_char_cons (q a : ascii) (s : string) :
  Str.contains (String a s) (String q "")
  = Ascii.eqb a q || Str.contains s (String q "").
Proof.
  cbn [Str.contains Str.startswith]. now rewrite startswith_nil, andb_true_r.
Qed.

Lemma lstrip_keeps_absent (c q : ascii) (s : string) :
  Str.contains s (String q "") = false ->
  Str.contains (Str.lstrip c s) (String q "") = false.
Proof.
  induction s as [|a s IH]; [easy|].
  intros H. cbn [Str.lstrip]. destruct (Ascii.eqb a c); [|exact H].
  apply IH. rewrite contains_char_cons in H. now apply orb_false_iff in H.
Qed.

Lemma rstrip_keeps_absent (c q : ascii) (s : string) :
  Str.contains s (String q "") = false ->
  Str.contains (Str.rstrip c s) (String q "") = false.
Proof.
  induction s as [|a s IH]; [easy|].
  rewrite contains_char_cons. intros [Ha Hs]%orb_false_iff.
  specialize (IH Hs).
  cbn [Str.rstrip]. destruct (Str.rstrip c s) as [|b r] eqn:E.
  - destruct (Ascii.eqb a c); [reflexivity|].
    now rewrite contains_char_cons, Ha.
  - now rewrite contains_char_cons, Ha, IH.
Qed.

Lemma strip_keeps_absent (c q : ascii) (s : string) :
  Str.contains s (String q "") = false ->
  Str.contains (Str.strip c s) (String q "") = false.
Proof.
  intros H. unfold Str.strip.
  now apply rstrip_keeps_absent, lstrip_keeps_absent.
Qed.

Lemma build_url_plain (self : AsyncCroutonClient) resource item_id :
  _build_url self resource item_id None = plain_url self resource item_id.
Proof.
  unfold _build_url, plain_url. cbn [has_params].
  destruct (Str.truthy item_id), (Str.truthy (ACCESS_STRING self));
    rewrite ?str_app_assoc, ?str_app_nil_r; reflexivity.
Qed.


Lemma build_url_token (self : AsyncCroutonClient) (t : string)
    resource item_id query_params :
  ACCESS_STRING self = Some t -> t <> "" ->
  let bare :=
    _build_url (mkClient (API_ROOT self) None) resource item_id query_params in
  _build_url self resource item_id query_params
  = bare +:+ (if Str.contains bare "?" then "&" else "?")
    +:+ "token=" +:+ Str.strip "?" t.
Proof.
  intros Ht Hne bare. subst bare. unfold _build_url. rewrite Ht.
  cbn [API_ROOT ACCESS_STRING Str.truthy default].
  destruct t as [|a t]; [congruence|]. reflexivity.
Qed.

Lemma lstrip_decompose (c : ascii) (s : string) :
  exists i, s = Str.replicate i c +:+ Str.lstrip c s.
Proof.
  induction s as [|a s [i IH]]; [now exists 0%nat|].
  cbn [Str.lstrip]. destruct (Ascii.eqb_spec a c) as [->|_].
  - exists (S i). cbn [Str.replicate]. now rewrite str_app_cons, <- IH.
  - now exists 0%nat.
Qed.

Lemma rstrip_decompose (c : ascii) (s : string) :
  exists k, s = Str.rstrip c s +:+ Str.replicate k c.
Proof.
  induction s as [|a s [k IH]]; [now exists 0%nat|].
  cbn [Str.rstrip]. destruct (Str.rstrip c s) as [|b r] eqn:E.
  - rewrite str_app_nil_l in IH.
    destruct (Ascii.eqb_spec a c) as [->|_].
    + exists (S k). rewrite str_app_nil_l. cbn [Str.replicate]. now rewrite <- IH.
    + exists k. rewrite str_app_cons, str_app_nil_l. now rewrite <- IH.
  - exists k. rewrite str_app_cons. now rewrite <- IH.
Qed.

Lemma lstrip_head (c : ascii) (s : string) :
  Str.head (Str.lstrip c s) <> Some c.
Proof.
  induction s as [|a s IH]; [discriminate|].
  cbn [Str.lstrip]. destruct (Ascii.eqb_spec a c) as [->|Hne]; [exact IH|].
  cbn [Str.head]. congruence.
Qed.

Lemma rstrip_head (c : ascii) (s : string) :
  Str.head s <> Some c -> Str.head (Str.rstrip c s) <> Some c.
Proof.
  destruct s as [|a s]; [easy|]. cbn [Str.head Str.rstrip]. intros Hne.
  destruct (Str.rstrip c s); [|exact Hne].
  destruct (Ascii.eqb_spec a c) as [->|_]; [congruence | exact Hne].
Qed.

Lemma strip_decompose (c : ascii) (s : string) :
  exists i j, s = Str.replicate i c +:+ Str.strip c s +:+ Str.replicate j c.
Proof.
  destruct (lstrip_decompose c s) as [i Hi].
  destruct (rstrip_decompose c (Str.lstrip c s)) as [j Hj].
  exists i, j. unfold Str.strip. now rewrite <- Hj.
Qed.

(** C3.  For every [apiRoot] and every resource, the URL starts with the
    base path [root + "/" + core], where [root] is [apiRoot] without its
    trailing slashes and [core] is the resource without its leading and
    trailing slashes; with no item id, no filters and no token the URL is
    that base path. *)
Theorem base_path (api_root resource : string) (token item_id : option string)
    (query_params : option (list (string * string))) :
  let root := Str.rstrip "/" api_root in
  let core := Str.strip "/" resource in
  (exists k, api_root = root +:+ Str.replicate k "/")
  /\ Str.last root <> Some "/"%char
  /\ (exists i j,
        resource = Str.replicate i "/" +:+ core +:+ Str.replicate j "/")
  /\ Str.head core <> Some "/"%char
  /\ Str.last core <> Some "/"%char
  /\ (exists rest,
        _build_url (__init__ api_root token) resource item_id query_params
        = (root +:+ "/" +:+ core) +:+ rest
        /\ (Str.truthy item_id = false -> has_params query_params = false ->
            Str.truthy token = false -> rest = "")).
Proof.
  intros root core.
  split; [apply rstrip_decompose|].
  split; [apply rstrip_last|].
  split; [apply strip_decompose|].
  split; [apply rstrip_head, lstrip_head|].
  split; [apply rstrip_last|].
  unfold _build_url. cbn [API_ROOT ACCESS_STRING __init__].
  fold root. fold core.
  destruct (Str.truthy item_id) eqn:Hi, (has_params query_params) eqn:Hq,
    (Str.truthy token) eqn:Ht;
    first
      [ exists ""; split; [now rewrite str_app_nil_r | reflexivity]
      | eexists; split;
        [rewrite ?str_app_assoc; reflexivity | intros; discriminate] ].
Qed.

Lemma base_path_witness :
  _build_url (__init__ "http://api.test/v1//" None) "//users//" None None
  = "http://api.test/v1/users".
Proof.
  destruct (base_path "http://api.test/v1//" "//users//" None None None)
    as (_ & _ & _ & _ & _ & rest & Hurl & Hrest).
  rewrite Hurl, (Hrest eq_refl eq_refl eq_refl). reflexivity.
Defined.

(** C4.  With a non-empty access token [t] configured, the URL is the URL
    built without a token, followed by ["&"] if that URL already contains a
    ["?"] and by ["?"] otherwise, followed by [token=] and [t] without its
    leading and trailing ["?"] characters; so it ends with that parameter,
    and the separator is ["&"] whenever filters were given.  For the token
    [?abc123] the parameter is [token=abc123]. *)
Theorem token_parameter (self : AsyncCroutonClient) (t : string)
    (resource : string) (item_id : option string)
    (query_params : option (list (string * string))) :
  ACCESS_STRING self = Some t -> t <> "" ->
  let bare :=
    _build_url (mkClient (API_ROOT self) None) resource item_id query_params in
  let separator := if Str.contains bare "?" then "&" else "?" in
  let value := Str.strip "?" t in
  _build_url self resource item_id query_params
  = bare +:+ separator +:+ "token=" +:+ value
  /\ Str.endswith (_build_url self resource item_id query_params)
       ("token=" +:+ value)
  /\ (has_params query_params = true -> separator = "&")
  /\ (exists i j, t = Str.replicate i "?" +:+ value +:+ Str.replicate j "?")
  /\ Str.head value <> Some "?"%char
  /\ Str.last value <> Some "?"%char.
Proof.
  intros Ht Hne bare separator value.
  pose proof (build_url_token self t resource item_id query_params Ht Hne)
    as Hurl. cbv zeta in Hurl. fold bare in Hurl. fold separator value in Hurl.
  split; [exact Hurl|].
  split.
  { exists (bare +:+ separator). rewrite Hurl. now rewrite str_app_assoc. }
  split.
  { intros Hq. subst separator bare. unfold _build_url.
    rewrite Hq. cbn [ACCESS_STRING Str.truthy].
    rewrite contains_app_r; [reflexivity|]. apply contains_prefix. }
  split; [apply strip_decompose|].
  split; [apply rstrip_head, lstrip_head | apply rstrip_last].
Qed.

Lemma token_parameter_witness :
  _build_url (__init__ "http://api.test/v1" (Some "?abc123"))
    "users" (Some "7") (Some [("status", "open")])
  = "http://api.test/v1/users/7?status=open" +:+ "&" +:+ "token=" +:+ "abc123"
  /\ _build_url (__init__ "http://api.test/v1" (Some "?abc123"))
       "users" None None
     = "http://api.test/v1/users" +:+ "?" +:+ "token=" +:+ "abc123".
Proof.
  split.
  - exact (proj1 (token_parameter
             (__init__ "http://api.test/v1" (Some "?abc123")) "?abc123"
             "users" (Some "7") (Some [("status", "open")])
             eq_refl ltac:(discriminate))).
  - exact (proj1 (token_parameter
             (__init__ "http://api.test/v1" (Some "?abc123")) "?abc123"
             "users" None None eq_refl ltac:(discriminate))).
Defined.

Lemma replicate_app (c : ascii) (i j : nat) :
  Str.replicate (i + j) c = Str.replicate i c +:+ Str.replicate j c.
Proof.
  induction i as [|i IH]; [reflexivity|].
  cbn [Nat.add Str.replicate]. now rewrite str_app_cons, IH.
Qed.

Lemma contains_replicate_other (c q : ascii) (n : nat) :
  Ascii.eqb c q = false ->
  Str.contains (Str.replicate n c) (String q "") = false.
Proof.
  intros H. induction n as [|n IH]; [reflexivity|].
  cbn [Str.replicate]. now rewrite contains_char_cons, H, IH.
Qed.

Lemma contains_strip (c q : ascii) (s : string) :
  Ascii.eqb c q = false ->
  Str.contains (Str.strip c s) (String q "") = Str.contains s (String q "").
Proof.
  intros H. destruct (strip_decompose c s) as (i & j & Hs).
  transitivity
    (Str.contains (Str.replicate i c +:+ Str.strip c s +:+ Str.replicate j c)
       (String q "")); [|now rewrite <- Hs].
  rewrite !contains_char_app, !contains_replicate_other by exact H.
  now rewrite orb_false_r.
Qed.

Lemma all_chars_excludes (p : ascii -> bool) (c : ascii) (s : string) :
  Str.all_chars p s = true -> p c = false ->
  Str.contains s (String c "") = false.
Proof.
  intros Hs Hc. induction s as [|a s IH]; [reflexivity|].
  cbn [Str.all_chars] in Hs. apply andb_true_iff in Hs as [Ha Hs].
  rewrite contains_char_cons, (IH Hs), orb_false_r.
  destruct (Ascii.eqb_spec a c) as [->|_]; [congruence | reflexivity].
Qed.

Section Urls.

Variable backend : list Request -> Request -> Exn + Response.
Variable res_json : Response -> Exn + json.
Variable entropy : nat -> N.


(** C7 (amended).  [put] with a non-empty item id [i] and no token
    configured requests exactly [<API_ROOT>/<resource>/<i>]: the URL ends
    in ["/" + i] and nothing follows the item id, so it contains a ["?"]
    exactly when the root, the resource or the item id contains one.  For
    every item id and every token, [put] and [delete] request the URL of
    the shape without filters. *)
Theorem put_url :
  (forall (resource : string) (data_obj : loc) (i : string) (w : World)
          (m : dict),
     dicts w !! data_obj = Some m ->
     i <> "" ->
     Str.truthy (ACCESS_STRING (client w)) = false ->
     let url := API_ROOT (client w) +:+ "/" +:+ Str.strip "/" resource
                +:+ "/" +:+ i in
     wire (snd (put backend res_json resource data_obj (Some i) w))
     = (wire w ++ [mkRequest PUT url (Some m)])%list
     /\ Str.endswith url ("/" +:+ i)
     /\ Str.contains url "?"
        = Str.contains (API_ROOT (client w)) "?"
          || Str.contains resource "?" || Str.contains i "?")
  /\ (forall (resource : string) (data_obj : loc) (item_id : option string)
             (w : World) (m : dict),
        dicts w !! data_obj = Some m ->
        wire (snd (put backend res_json resource data_obj item_id w))
        = (wire w ++ [mkRequest PUT (plain_url (client w) resource item_id)
                        (Some m)])%list)
  /\ (forall (resource : string) (item_id : option string) (w : World),
        wire (snd (delete backend res_json resource item_id w))
        = (wire w ++ [mkRequest DELETE
                        (plain_url (client w) resource item_id) None])%list).
Proof.
  split; [|split].
  - intros resource data_obj i w m Hm Hi Ht url.
    assert (Hplain : plain_url (client w) resource (Some i) = url).
    { unfold plain_url. rewrite Ht. destruct i as [|a i]; [congruence|].
      cbn [Str.truthy Str.nonempty default]. subst url.
      now rewrite str_app_nil_r, ?str_app_assoc. }
    split.
    { rewrite (put_run backend res_json resource data_obj (Some i) w m Hm).
      cbn [snd sent wire]. now rewrite build_url_plain, Hplain. }
    split.
    { exists (API_ROOT (client w) +:+ "/" +:+ Str.strip "/" resource).
      subst url. now rewrite !str_app_assoc. }
    subst url. rewrite !contains_char_app.
    rewrite (contains_strip "/" "?" resource) by reflexivity.
    change (Str.contains "/" "?") with false. cbn [orb].
    now rewrite orb_assoc.
  - intros resource data_obj item_id w m Hm.
    rewrite (put_run backend res_json resource data_obj item_id w m Hm).
    cbn [snd sent wire]. now rewrite build_url_plain.
  - intros resource item_id w. rewrite delete_run.
    cbn [snd sent wire]. now rewrite build_url_plain.
Qed.

(** C8.  [__init__] stores [apiRoot] without its trailing slashes and the
    access token as given, and every operation leaves the client's two
    fields as they were. *)
Theorem configuration_is_read_only :
  (forall api_root access_string,
     API_ROOT (__init__ api_root access_string) = Str.rstrip "/" api_root
     /\ ACCESS_STRING (__init__ api_root access_string) = access_string
     /\ (exists k, api_root = API_ROOT (__init__ api_root access_string)
                              +:+ Str.replicate k "/")
     /\ Str.last (API_ROOT (__init__ api_root access_string)) <> Some "/"%char)
  /\ (forall (c : Call) (w : World),
        client (snd (invoke backend res_json entropy c w)) = client w).
Proof.
  split.
  - intros api_root access_string. cbn [__init__ API_ROOT ACCESS_STRING].
    split; [reflexivity|]. split; [reflexivity|].
    split; [apply rstrip_decompose | apply rstrip_last].
  - intros c w. destruct (issued entropy c w) as [rq|] eqn:Hrq.
    + rewrite (invoke_run backend res_json entropy c w rq Hrq).
      cbn [snd sent client].
      destruct c as [r i fk fv | r d | r d i | r i]; cbn [touched];
        try reflexivity.
      destruct (dicts w !! d) as [m|]; [|reflexivity].
      now destruct (m !! "id").
    + destruct (invoke_unbound backend res_json entropy c w Hrq) as [d Hd].
      now rewrite Hd.
Qed.

(** C9.  When [filter_key] or [filter_value] is [None] or the empty string,
    [get] builds no filter mapping: it behaves as [get] without filters and
    requests the URL of the shape without filters. *)
Theorem get_drops_partial_filter (resource : string)
    (item_id filter_key filter_value : option string) (w : World) :
  Str.truthy filter_key = false \/ Str.truthy filter_value = false ->
  filter_params filter_key filter_value = None
  /\ get backend res_json resource item_id filter_key filter_value w
     = get backend res_json resource item_id None None w
  /\ wire (snd (get backend res_json resource item_id
                  filter_key filter_value w))
     = (wire w ++ [mkRequest GET (plain_url (client w) resource item_id)
                     None])%list.
Proof.
  intros H.
  assert (Hf : filter_params filter_key filter_value = None).
  { unfold filter_params. destruct filter_key as [k|]; [|reflexivity].
    destruct filter_value as [v|]; [|reflexivity].
    cbn [Str.truthy] in H. destruct H as [-> | ->]; [reflexivity|].
    now rewrite andb_false_r. }
  split; [exact Hf|]. split.
  - rewrite !get_run. now rewrite Hf.
  - rewrite get_run. cbn [snd sent wire]. now rewrite Hf, build_url_plain.
Qed.

End Urls.

(** ** Generated identifiers *)

Lemma str_length_app (s t : string) :
  String.length (s +:+ t) = (String.length s + String.length t)%nat.
Proof.
  induction s as [|a s IH]; [reflexivity|].
  rewrite str_app_cons. cbn [String.length]. now rewrite IH.
Qed.

Lemma hex_digits_length (n : nat) (e : N) :
  String.length (UUID.hex_digits n e) = n.
Proof.
  revert e. induction n as [|n IH]; intros e; [reflexivity|].
  cbn [UUID.hex_digits]. rewrite str_length_app, IH. cbn. lia.
Qed.

Lemma hex_val_lower (d : N) :
  (d < 16)%N -> UUID.hex_val (UUID.hex_lower d) = Some d.
Proof.
  intros H. rewrite <- (N2Nat.id d).
  assert (Hk : (N.to_nat d < 16)%nat) by lia.
  revert Hk. generalize (N.to_nat d) as k. intros k Hk.
  do 16 (destruct k as [|k]; [reflexivity|]). lia.
Qed.

Lemma hex_value_app (acc : N) (s t : string) :
  UUID.hex_value acc (s +:+ t) = UUID.hex_value (UUID.hex_value acc s) t.
Proof.
  revert acc. induction s as [|a s IH]; intros acc; [reflexivity|].
  rewrite str_app_cons. cbn [UUID.hex_value].
  destruct (UUID.hex_val a); apply IH.
Qed.

Lemma hex_value_digits (n : nat) (e : N) :
  UUID.hex_value 0 (UUID.hex_digits n e) = (e mod 16 ^ N.of_nat n)%N.
Proof.
  revert e. induction n as [|n IH]; intros e.
  - cbn. now rewrite N.mod_1_r.
  - cbn [UUID.hex_digits]. rewrite hex_value_app, IH.
    cbn [UUID.hex_value].
    rewrite hex_val_lower by (apply N.mod_lt; lia).
    rewrite Nat2N.inj_succ, N.pow_succ_r', N.Div0.mod_mul_r. lia.
Qed.

Lemma hex_digits_mod (n : nat) (e : N) :
  UUID.hex_digits n (e mod 16 ^ N.of_nat n) = UUID.hex_digits n e.
Proof.
  revert e. induction n as [|n IH]; intros e; [reflexivity|].
  cbn [UUID.hex_digits].
  rewrite Nat2N.inj_succ, N.pow_succ_r', N.Div0.mod_mul_r.
  set (m := (16 ^ N.of_nat n)%N).
  replace ((e mod 16 + 16 * ((e / 16) mod m)) / 16)%N with ((e / 16) mod m)%N.
  2:{ rewrite (N.mul_comm 16), N.div_add by lia.
      rewrite (N.div_small (e mod 16) 16) by (apply N.mod_lt; lia).
      reflexivity. }
  replace ((e mod 16 + 16 * ((e / 16) mod m)) mod 16)%N with (e mod 16)%N.
  2:{ rewrite (N.mul_comm 16), N.Div0.mod_add. now rewrite N.Div0.mod_mod. }
  now rewrite IH.
Qed.

Lemma hex_digits_all_hex (n : nat) (e : N) :
  Str.all_chars UUID.is_hex (UUID.hex_digits n e) = true.
Proof.
  revert e. induction n as [|n IH]; intros e; [reflexivity|].
  cbn [UUID.hex_digits]. rewrite all_chars_app, IH.
  cbn [Str.all_chars]. unfold UUID.is_hex.
  rewrite hex_val_lower by (apply N.mod_lt; lia). reflexivity.
Qed.

(** A string of length 32, taken apart into its characters. *)
Ltac explode32 h H :=
  do 32 (destruct h as [|? h]; [discriminate H|];
         cbn [String.length] in H; apply Nat.succ_inj in H);
  destruct h; [|discriminate H].

Lemma ungroup_group (h : string) :
  String.length h = 32%nat -> UUID.ungroup (UUID.group h) = h.
Proof. intros H. explode32 h H. reflexivity. Qed.

Lemma group_shape (h : string) :
  String.length h = 32%nat ->
  UUID.is_uuid (UUID.group h) = Str.all_chars UUID.is_hex h.
Proof. intros H. explode32 h H. reflexivity. Qed.

Lemma create_is_uuid (e : N) : UUID.is_uuid (UUID.create e) = true.
Proof.
  unfold UUID.create.
  rewrite group_shape by apply hex_digits_length.
  apply hex_digits_all_hex.
Qed.

Lemma create_collision (e1 e2 : N) :
  UUID.create e1 = UUID.create e2
  <-> (e1 mod 2 ^ 128 = e2 mod 2 ^ 128)%N.
Proof.
  change (2 ^ 128)%N with (16 ^ N.of_nat 32)%N. split.
  - intros H. apply (f_equal UUID.ungroup) in H. unfold UUID.create in H.
    rewrite !ungroup_group in H by apply hex_digits_length.
    rewrite <- !hex_value_digits. now rewrite H.
  - intros H. unfold UUID.create.
    rewrite <- (hex_digits_mod 32 e1), <- (hex_digits_mod 32 e2).
    now rewrite H.
Qed.

Section Identifiers.

Variable backend : list Request -> Request -> Exn + Response.
Variable res_json : Response -> Exn + json.
Variable entropy : nat -> N.

(** C5.  When the caller's dictionary has no [id] key, [post] sends it with
    an [id] entry holding a freshly generated string of UUID syntax, and
    consumes one random draw; a second such call uses the next draw, and
    the two identifiers coincide only if the two 128-bit draws do (for each
    draw exactly one of the 2^128 values of the other gives the same
    identifier).  When the dictionary has an [id] key, nothing is generated,
    the dictionary is left alone and is sent as it is. *)
Theorem post_generates_id (resource : string) (data_obj : loc) (w : World)
    (m : dict) :
  dicts w !! data_obj = Some m ->
  let out := snd (post backend res_json entropy resource data_obj w) in
  let url := plain_url (client w) resource None in
  let fresh := UUID.create (entropy (drawn w)) in
  (m !! "id" = None ->
     wire out
     = (wire w ++ [mkRequest POST url (Some (<["id" := JStr fresh]> m))])%list
     /\ UUID.is_uuid fresh = true
     /\ drawn out = S (drawn w))
  /\ (m !! "id" = None ->
      forall resource2 d2 (m2 : dict),
        dicts out !! d2 = Some m2 -> m2 !! "id" = None ->
        let fresh2 := UUID.create (entropy (S (drawn w))) in
        wire (snd (post backend res_json entropy resource2 d2 out))
        = (wire out
           ++ [mkRequest POST (plain_url (client w) resource2 None)
                 (Some (<["id" := JStr fresh2]> m2))])%list
        /\ UUID.is_uuid fresh2 = true
        /\ (fresh2 = fresh
            <-> (entropy (S (drawn w)) mod 2 ^ 128
                 = entropy (drawn w) mod 2 ^ 128)%N))
  /\ (forall e1 : N,
        exists! e2 : N,
          (e2 < 2 ^ 128)%N /\ UUID.create e2 = UUID.create e1)
  /\ (is_Some (m !! "id") ->
      wire out = (wire w ++ [mkRequest POST url (Some m)])%list
      /\ drawn out = drawn w
      /\ dicts out = dicts w).
Proof.
  intros Hm out url fresh.
  assert (Hfresh : m !! "id" = None ->
            out = sent (mkRequest POST url (Some (<["id" := JStr fresh]> m)))
                    (mkWorld (client w)
                       (<[data_obj := <["id" := JStr fresh]> m]> (dicts w))
                       (S (drawn w)) (wire w) (sessions w))).
  { intros Hid. subst out.
    rewrite (post_run_fresh backend res_json entropy resource data_obj w m
               Hm Hid).
    cbn [snd]. now rewrite build_url_plain. }
  split; [|split; [|split]].
  - intros Hid. rewrite (Hfresh Hid). cbn [sent wire drawn].
    split; [reflexivity|]. split; [apply create_is_uuid | reflexivity].
  - intros Hid resource2 d2 m2 Hm2 Hid2 fresh2.
    rewrite (post_run_fresh backend res_json entropy resource2 d2 out m2
               Hm2 Hid2).
    rewrite (Hfresh Hid). cbn [snd sent wire drawn client].
    rewrite build_url_plain.
    split; [reflexivity|]. split; [apply create_is_uuid|].
    apply create_collision.
  - intros e1. exists (e1 mod 2 ^ 128)%N. split.
    + split; [apply N.mod_lt; discriminate|].
      apply create_collision. now rewrite N.Div0.mod_mod.
    + intros e2 [Hlt He]. apply create_collision in He.
      rewrite <- He. now apply N.mod_small.
  - intros Hid. subst out.
    rewrite (post_run_given backend res_json entropy resource data_obj w m
               Hm Hid).
    cbn [snd sent wire drawn dicts]. now rewrite build_url_plain.
Qed.

(** C10.  When the caller's dictionary has no [id] key, the dictionary the
    caller holds has the generated [id] entry after [post], whatever the
    outcome of the request (a returned value, a raised [ValueError] or
    decoding failure, a transport failure); its other entries and the other
    dictionaries are as they were. *)
Theorem post_mutates_caller_dict (resource : string) (data_obj : loc)
    (w : World) (m : dict) :
  dicts w !! data_obj = Some m ->
  m !! "id" = None ->
  let out := snd (post backend res_json entropy resource data_obj w) in
  let fresh := JStr (UUID.create (entropy (drawn w))) in
  exists m' : dict,
    dicts out !! data_obj = Some m'
    /\ m' = <["id" := fresh]> m
    /\ m' !! "id" = Some fresh
    /\ (forall key, key <> "id" -> m' !! key = m !! key)
    /\ (forall d, d <> data_obj -> dicts out !! d = dicts w !! d).
Proof.
  intros Hm Hid out fresh. subst out.
  rewrite (post_run_fresh backend res_json entropy resource data_obj w m
             Hm Hid).
  cbn [snd sent dicts]. exists (<["id" := fresh]> m).
  split; [apply lookup_insert_eq|]. split; [reflexivity|].
  split; [apply lookup_insert_eq|]. split.
  - intros key Hk. now apply lookup_insert_ne.
  - intros d Hd. now apply lookup_insert_ne.
Qed.

End Identifiers.

(** ** Instances on a mocked backend *)


Lemma put_url_witness :
  wire (snd (put (mock (mkResponse 200 body_a1)) json_body
               "items" 1%positive (Some "42")
               (demo_world (__init__ "http://api.test/v1/" None))))
  = [mkRequest PUT "http://api.test/v1/items/42"
       (Some {["name" := JStr "x"]})].
Proof.
  exact (proj1
    (proj1 (put_url (mock (mkResponse 200 body_a1)) json_body)
       "items" 1%positive "42"
       (demo_world (__init__ "http://api.test/v1/" None))
       {["name" := JStr "x"]}
       eq_refl ltac:(discriminate) eq_refl)).
Defined.

(** C7 as stated fails: the item id is put into the URL as it is, so an
    item id with a ["?"] gives a URL with a query string, with no token
    configured. *)
Lemma put_item_id_not_encoded :
  let w := demo_world (__init__ "http://api.test/v1/" None) in
  let url := "http://api.test/v1/items/42?x=1" in
  ACCESS_STRING (client w) = None
  /\ wire (snd (put (mock (mkResponse 200 body_a1)) json_body
                  "items" 1%positive (Some "42?x=1") w))
     = [mkRequest PUT url (Some {["name" := JStr "x"]})]
  /\ Str.endswith url ("/" +:+ "42?x=1")
  /\ Str.contains url "?" = true.
Proof.
  intros w url. split; [reflexivity|]. split; [vm_compute; reflexivity|].
  split; [now exists "http://api.test/v1/items" | reflexivity].
Qed.

Lemma get_drops_partial_filter_witness :
  wire (snd (get (mock (mkResponse 200 body_a1)) json_body
               "items" None (Some "status") (Some "")
               (demo_world (__init__ "http://api.test/v1/" None))))
  = [mkRequest GET "http://api.test/v1/items" None].
Proof.
  exact (proj2 (proj2
    (get_drops_partial_filter (mock (mkResponse 200 body_a1)) json_body
       "items" None (Some "status") (Some "")
       (demo_world (__init__ "http://api.test/v1/" None))
       (or_intror eq_refl)))).
Defined.

Lemma post_generates_id_witness :
  wire (snd (post (mock (mkResponse 200 body_a1)) json_body seed
               "items" 1%positive
               (demo_world (__init__ "http://api.test/v1/" None))))
  = [mkRequest POST "http://api.test/v1/items"
       (Some (<["id" := JStr "6ba7b810-9dad-11d1-80b4-00c04fd430c8"]>
                {["name" := JStr "x"]}))]
  /\ UUID.is_uuid "6ba7b810-9dad-11d1-80b4-00c04fd430c8" = true.
Proof.
  destruct (proj1
    (post_generates_id (mock (mkResponse 200 body_a1)) json_body seed
       "items" 1%positive
       (demo_world (__init__ "http://api.test/v1/" None))
       {["name" := JStr "x"]} eq_refl) eq_refl) as (Hwire & Hshape & _).
  exact (conj Hwire Hshape).
Defined.

Lemma post_mutates_caller_dict_witness :
  let w := demo_world (__init__ "http://api.test/v1/" None) in
  let after := <["id" := JStr "6ba7b810-9dad-11d1-80b4-00c04fd430c8"]>
                 ({["name" := JStr "x"]} : dict) in
  fst (post unreachable json_body seed "items" 1%positive w)
  = Raised (ClientError "connection refused")
  /\ dicts (snd (post unreachable json_body seed "items" 1%positive w))
     !! 1%positive = Some after
  /\ dicts (snd (post (mock (mkResponse 500 "boom")) json_body seed
                   "items" 1%positive w))
     !! 1%positive = Some after.
Proof.
  intros w after. split; [vm_compute; reflexivity|]. split.
  - destruct (post_mutates_caller_dict unreachable json_body seed
                "items" 1%positive w {["name" := JStr "x"]}
                eq_refl eq_refl) as (m' & Hm' & Heq & _).
    exact (eq_trans Hm' (f_equal Some Heq)).
  - destruct (post_mutates_caller_dict (mock (mkResponse 500 "boom"))
                json_body seed "items" 1%positive w {["name" := JStr "x"]}
                eq_refl eq_refl) as (m' & Hm' & Heq & _).
    exact (eq_trans Hm' (f_equal Some Heq)).
Defined.


(* ================================================================== *)
(** * Further properties of the operations *)

(** ** More on strings *)

Lemma strip_replicate_only (c : ascii) (n : nat) :
  Str.strip c (Str.replicate n c) = "".
Proof. unfold Str.strip. now rewrite lstrip_replicate_only. Qed.

Lemma rstrip_pad (c : ascii) (k : nat) (s : string) :
  Str.rstrip c (s +:+ Str.replicate k c) = Str.rstrip c s.
Proof.
  destruct (rstrip_decompose c s) as [b Hs].
  rewrite Hs at 1. rewrite str_app_assoc, <- replicate_app.
  apply rstrip_replicate, rstrip_last.
Qed.

Lemma strip_pad (c : ascii) (i j : nat) (s : string) :
  Str.strip c (Str.replicate i c +:+ s +:+ Str.replicate j c) = Str.strip c s.
Proof.
  destruct (strip_decompose c s) as (a & b & Hs).
  rewrite Hs at 1.
  rewrite !str_app_assoc, <- replicate_app.
  rewrite <- (str_app_assoc (Str.replicate i c)), <- replicate_app.
  apply strip_replicate; [apply rstrip_head, lstrip_head | apply rstrip_last].
Qed.

(** ** Every call: one request, one session, failures passed on *)

Section Calls.

Variable backend : list Request -> Request -> Exn + Response.
Variable res_json : Response -> Exn + json.
Variable entropy : nat -> N.

Lemma touched_frame (c : Call) (w : World) :
  client (touched entropy c w) = client w
  /\ sessions (touched entropy c w) = sessions w
  /\ wire (touched entropy c w) = wire w
  /\ (drawn w <= drawn (touched entropy c w) <= drawn w + posts [c])%nat.
Proof.
  destruct c as [r i fk fv | r d | r d i | r i]; cbn [touched posts];
    try (repeat split; lia).
  destruct (dicts w !! d) as [m|]; [|repeat split; lia].
  destruct (m !! "id"); cbn; repeat split; lia.
Qed.

(** X1.  When the transport fails on the request of an operation, the
    operation raises the transport's exception as it is; the request was
    put on the wire once and is not repeated. *)
Theorem transport_failure_propagates (c : Call) (w : World) (rq : Request)
    (e : Exn) :
  issued entropy c w = Some rq ->
  backend (wire w) rq = inl e ->
  fst (invoke backend res_json entropy c w) = Raised e
  /\ wire (snd (invoke backend res_json entropy c w)) = (wire w ++ [rq])%list.
Proof.
  intros Hrq He.
  rewrite (invoke_run backend res_json entropy c w rq Hrq), He.
  destruct (touched_frame c w) as (_ & _ & Hw & _).
  cbn [fst snd settle sent wire]. now rewrite Hw.
Qed.

(** X2.  Whatever the outcome, an operation puts exactly one request on the
    wire, with the verb of the operation; [get] and [delete] send no body,
    [post] and [put] send a dictionary; and the session the operation
    opened is closed again. *)
Theorem one_request_per_call (c : Call) (w : World) (rq : Request) :
  issued entropy c w = Some rq ->
  let after := snd (invoke backend res_json entropy c w) in
  wire after = (wire w ++ [rq])%list
  /\ req_method rq = method_of c
  /\ (req_json rq = None <-> method_of c = GET \/ method_of c = DELETE)
  /\ sessions after = sessions w.
Proof.
  intros Hrq after. subst after.
  rewrite (invoke_run backend res_json entropy c w rq Hrq).
  destruct (touched_frame c w) as (_ & Hs & Hw & _).
  cbn [snd sent wire sessions]. rewrite Hw, Hs.
  split; [reflexivity|].
  assert (Hshape : req_method rq = method_of c
            /\ (req_json rq = None
                <-> method_of c = GET \/ method_of c = DELETE)).
  { destruct c as [r i fk fv | r d | r d i | r i];
      cbn [issued method_of] in *;
      try destruct (dicts w !! d) as [m|]; try discriminate;
      injection Hrq as <-; cbn [req_method req_json];
      (split; [reflexivity | intuition congruence]). }
  destruct Hshape as [Hm Hb]. split; [exact Hm|]. split; [exact Hb|].
  reflexivity.
Qed.

(** X3.  [get], [put] and [delete] change no dictionary of a caller and
    draw no randomness. *)
Theorem reads_leave_store_alone :
  (forall resource item_id filter_key filter_value (w : World),
     let after :=
       snd (get backend res_json resource item_id filter_key filter_value w) in
     dicts after = dicts w /\ drawn after = drawn w)
  /\ (forall resource (data_obj : loc) item_id (w : World),
        let after := snd (put backend res_json resource data_obj item_id w) in
        dicts after = dicts w /\ drawn after = drawn w)
  /\ (forall resource item_id (w : World),
        let after := snd (delete backend res_json resource item_id w) in
        dicts after = dicts w /\ drawn after = drawn w).
Proof.
  split; [|split].
  - intros. subst after. rewrite get_run. split; reflexivity.
  - intros. subst after. destruct (dicts w !! data_obj) as [m|] eqn:Hm.
    + rewrite (put_run backend res_json resource data_obj item_id w m Hm).
      split; reflexivity.
    + rewrite (put_unbound backend res_json resource data_obj item_id w Hm).
      split; reflexivity.
  - intros. subst after. rewrite delete_run. split; reflexivity.
Qed.

Lemma invoke_step (c : Call) (w : World) :
  let after := snd (invoke backend res_json entropy c w) in
  client after = client w
  /\ sessions after = sessions w
  /\ (exists l, wire after = (wire w ++ l)%list /\ (length l <= 1)%nat)
  /\ (drawn w <= drawn after <= drawn w + posts [c])%nat.
Proof.
  intros after. subst after.
  destruct (issued entropy c w) as [rq|] eqn:Hrq.
  - rewrite (invoke_run backend res_json entropy c w rq Hrq).
    cbn [snd sent client sessions wire drawn].
    pose proof (touched_frame c w) as Ht.
    destruct Ht as (H1 & H2 & H3 & H4).
    split; [exact H1|]. split; [exact H2|]. split; [|exact H4].
    exists [rq]. rewrite H3. split; [reflexivity | cbn; lia].
  - destruct (invoke_unbound backend res_json entropy c w Hrq) as [d Hd].
    rewrite Hd. cbn [snd].
    split; [reflexivity|]. split; [reflexivity|]. split; [|lia].
    exists []. rewrite app_nil_r. split; [reflexivity | cbn; lia].
Qed.

Lemma posts_cons (c : Call) (cs : list Call) :
  posts (c :: cs) = (posts [c] + posts cs)%nat.
Proof. destruct c; reflexivity. Qed.

(** X4.  Over any sequence of calls, made one after the other whatever each
    returns or raises: the client's configuration stays as it was, no
    session is left open, the requests already on the wire stay as they
    were and at most one request per call is added, and at most one random
    draw per [post] is consumed. *)
Theorem calls_keep_invariants (cs : list Call) (w : World) :
  let after := run_calls backend res_json entropy cs w in
  client after = client w
  /\ sessions after = sessions w
  /\ (exists l, wire after = (wire w ++ l)%list
                /\ (length l <= length cs)%nat)
  /\ (drawn w <= drawn after <= drawn w + posts cs)%nat.
Proof.
  revert w. induction cs as [|c cs IH]; intros w after; subst after.
  - cbn [run_calls posts length]. repeat split; try lia.
    exists []. now rewrite app_nil_r.
  - cbn [run_calls].
    destruct (invoke_step c w) as (H1 & H2 & (l1 & Hl1 & Hn1) & H4).
    destruct (IH (snd (invoke backend res_json entropy c w)))
      as (I1 & I2 & (l2 & Hl2 & Hn2) & I4).
    cbv zeta in *. rewrite posts_cons.
    split; [congruence|]. split; [congruence|]. split; [|lia].
    exists (l1 ++ l2)%list. rewrite Hl2, Hl1, <- app_assoc.
    split; [reflexivity|]. rewrite length_app. cbn [length]. lia.
Qed.

End Calls.

(** ** More on URL construction *)

Lemma bare_url_mark (root resource : string) (item_id : option string)
    (query_params : option (list (string * string))) :
  Str.contains (_build_url (mkClient root None) resource item_id query_params)
    "?"
  = has_params query_params
    || Str.contains root "?" || Str.contains resource "?"
    || (Str.truthy item_id && Str.contains (default "" item_id) "?").
Proof.
  assert (Hs : Str.contains (Str.strip "/" resource) "?"
               = Str.contains resource "?")
    by (apply contains_strip; reflexivity).
  assert (Hq : forall x, Str.contains ("?" +:+ x) "?" = true)
    by (intros x; apply contains_prefix).
  assert (Hslash : forall x, Str.contains ("/" +:+ x) "?" = Str.contains x "?")
    by (intros x; now rewrite contains_char_app).
  unfold _build_url. cbn [API_ROOT ACCESS_STRING Str.truthy].
  destruct (Str.truthy item_id), (has_params query_params);
    rewrite ?contains_char_app, ?Hq, ?Hslash, ?contains_char_app, ?Hs;
    cbn [andb orb]; rewrite ?orb_true_r, ?orb_false_r; try reflexivity.
  all: now destruct (Str.contains root "?"), (Str.contains resource "?").
Qed.

(** X5.  With a token configured, the token parameter is joined with ["&"]
    exactly when filters were given or a ["?"] occurs in the API root, in
    the resource or in the item id, and with ["?"] otherwise: a ["?"]
    anywhere in the path selects ["&"] even when there are no filters. *)
Theorem token_separator (self : AsyncCroutonClient) (t : string)
    (resource : string) (item_id : option string)
    (query_params : option (list (string * string))) :
  ACCESS_STRING self = Some t -> t <> "" ->
  let bare :=
    _build_url (mkClient (API_ROOT self) None) resource item_id query_params in
  let marked :=
    has_params query_params
    || Str.contains (API_ROOT self) "?" || Str.contains resource "?"
    || (Str.truthy item_id && Str.contains (default "" item_id) "?") in
  _build_url self resource item_id query_params
  = bare +:+ (if marked then "&" else "?") +:+ "token=" +:+ Str.strip "?" t.
Proof.
  intros Ht Hne bare marked. subst bare marked.
  rewrite <- bare_url_mark.
  exact (build_url_token self t resource item_id query_params Ht Hne).
Qed.

(** X6.  A token made only of ["?"] characters counts as configured, and
    its value is empty after stripping: the URL ends in [token=] with
    nothing after it. *)
Theorem token_of_question_marks (self : AsyncCroutonClient) (n : nat)
    (resource : string) (item_id : option string)
    (query_params : option (list (string * string))) :
  ACCESS_STRING self = Some (Str.replicate (S n) "?") ->
  let bare :=
    _build_url (mkClient (API_ROOT self) None) resource item_id query_params in
  _build_url self resource item_id query_params
  = bare +:+ (if Str.contains bare "?" then "&" else "?") +:+ "token=".
Proof.
  intros Ht bare.
  rewrite (build_url_token self _ resource item_id query_params Ht)
    by discriminate.
  now rewrite strip_replicate_only.
Qed.

(** X7.  Slashes after the API root and around the resource never matter:
    padding them with any number of slashes gives the same URL. *)
Theorem slashes_do_not_matter (root resource : string) (i j k : nat)
    (token item_id : option string)
    (query_params : option (list (string * string))) :
  __init__ (root +:+ Str.replicate k "/") token = __init__ root token
  /\ _build_url (__init__ (root +:+ Str.replicate k "/") token)
       (Str.replicate i "/" +:+ resource +:+ Str.replicate j "/")
       item_id query_params
     = _build_url (__init__ root token) resource item_id query_params.
Proof.
  assert (H : __init__ (root +:+ Str.replicate k "/") token
              = __init__ root token).
  { unfold __init__. now rewrite rstrip_pad. }
  split; [exact H|]. rewrite H. unfold _build_url. now rewrite strip_pad.
Qed.

Section More.

Variable backend : list Request -> Request -> Exn + Response.
Variable res_json : Response -> Exn + json.
Variable entropy : nat -> N.

(** X8.  [get] with a non-empty filter key and value requests
    [<root>/<resource>[/<item>]?<K>=<V>] followed, when a token is
    configured, by [&token=<value>].  [K] and [V] are the percent-encoded
    key and value and contain none of the characters [& = ? # /] or a
    space, so a filter adds one parameter and nothing else to the URL. *)
Theorem filter_is_confined (resource : string) (item_id : option string)
    (k v : string) (w : World) :
  k <> "" -> v <> "" ->
  let base :=
    API_ROOT (client w) +:+ "/" +:+ Str.strip "/" resource
    +:+ (if Str.truthy item_id then "/" +:+ default "" item_id else "") in
  let tail :=
    if Str.truthy (ACCESS_STRING (client w))
    then "&token=" +:+ Str.strip "?" (default "" (ACCESS_STRING (client w)))
    else "" in
  let K := Urllib.quote_plus k in
  let V := Urllib.quote_plus v in
  wire (snd (get backend res_json resource item_id (Some k) (Some v) w))
  = (wire w ++ [mkRequest GET
                  (base +:+ "?" +:+ K +:+ "=" +:+ V +:+ tail) None])%list
  /\ (forall c, In c delimiters ->
        Str.contains K (String c "") = false
        /\ Str.contains V (String c "") = false).
Proof.
  intros Hk Hv base tail K V. split.
  - rewrite get_run. cbn [snd sent wire]. do 3 f_equal.
    unfold filter_params.
    destruct k as [|a k]; [congruence|]. destruct v as [|b v]; [congruence|].
    cbn [Str.nonempty andb]. subst base tail K V.
    unfold _build_url. cbn [has_params].
    cbv [default from_option id Urllib.urlencode Urllib.pair_enc fst snd].
    destruct (Str.truthy item_id), (Str.truthy (ACCESS_STRING (client w)));
      rewrite ?str_app_assoc, ?str_app_nil_r;
      rewrite ?contains_char_app;
      rewrite ?(contains_prefix "?"), ?orb_true_r; reflexivity.
  - intros c Hc. cbn in Hc. subst K V.
    split; apply (all_chars_excludes url_char);
      try apply quote_plus_url_chars;
      intuition (subst; reflexivity).
Qed.

(** X9.  [post] writes the generated [id] into the dictionary the caller
    holds, so what is done with that dictionary afterwards sees it: a second
    [post] of the same dictionary generates nothing and sends the same [id]
    again, and a [put] of it sends the [id] too. *)
Theorem post_then_reuse (resource resource2 : string) (data_obj : loc)
    (w : World) (m : dict) :
  dicts w !! data_obj = Some m ->
  m !! "id" = None ->
  let stamped := <["id" := JStr (UUID.create (entropy (drawn w)))]> m in
  let w1 := snd (post backend res_json entropy resource data_obj w) in
  let w2 := snd (post backend res_json entropy resource2 data_obj w1) in
  wire w2
  = (wire w ++ [mkRequest POST (plain_url (client w) resource None)
                  (Some stamped);
                mkRequest POST (plain_url (client w) resource2 None)
                  (Some stamped)])%list
  /\ drawn w2 = S (drawn w)
  /\ dicts w2 = dicts w1
  /\ (forall item_id,
        wire (snd (put backend res_json resource2 data_obj item_id w1))
        = (wire w1 ++ [mkRequest PUT
                         (plain_url (client w) resource2 item_id)
                         (Some stamped)])%list).
Proof.
  intros Hm Hid stamped w1 w2.
  assert (Hw1 : w1 = sent (mkRequest POST (plain_url (client w) resource None)
                             (Some stamped))
                       (mkWorld (client w) (<[data_obj := stamped]> (dicts w))
                          (S (drawn w)) (wire w) (sessions w))).
  { subst w1.
    rewrite (post_run_fresh backend res_json entropy resource data_obj w m
               Hm Hid).
    cbn [snd]. now rewrite build_url_plain. }
  assert (Hd1 : dicts w1 !! data_obj = Some stamped).
  { rewrite Hw1. cbn [sent dicts]. apply lookup_insert_eq. }
  assert (Hs1 : is_Some (stamped !! "id")).
  { subst stamped. rewrite lookup_insert_eq. eauto. }
  assert (Hc1 : client w1 = client w) by now rewrite Hw1.
  split; [|split; [|split]].
  - subst w2.
    rewrite (post_run_given backend res_json entropy resource2 data_obj w1
               stamped Hd1 Hs1).
    cbn [snd sent wire]. rewrite build_url_plain, Hc1.
    rewrite Hw1. cbn [sent wire]. now rewrite <- app_assoc.
  - subst w2.
    rewrite (post_run_given backend res_json entropy resource2 data_obj w1
               stamped Hd1 Hs1).
    cbn [snd sent drawn]. now rewrite Hw1.
  - subst w2.
    now rewrite (post_run_given backend res_json entropy resource2 data_obj w1
                   stamped Hd1 Hs1).
  - intros item_id.
    rewrite (put_run backend res_json resource2 data_obj item_id w1 stamped
               Hd1).
    cbn [snd sent wire]. now rewrite build_url_plain, Hc1.
Qed.

(** X10.  An item id that is the empty string is no item id: [get], [put]
    and [delete] then address the collection, as they do without an item
    id.  An empty access token is no token. *)
Theorem empty_arguments_are_ignored :
  (forall resource filter_key filter_value,
     get backend res_json resource (Some "") filter_key filter_value
     = get backend res_json resource None filter_key filter_value)
  /\ (forall resource data_obj,
        put backend res_json resource data_obj (Some "")
        = put backend res_json resource data_obj None)
  /\ (forall resource,
        delete backend res_json resource (Some "")
        = delete backend res_json resource None)
  /\ (forall root resource item_id query_params,
        _build_url (mkClient root (Some "")) resource item_id query_params
        = _build_url (mkClient root None) resource item_id query_params).
Proof. repeat split. Qed.

End More.

(** ** Further instances on a mocked backend *)

Lemma transport_failure_propagates_witness :
  let w := demo_world (__init__ "http://api.test/v1/" None) in
  fst (get unreachable json_body "items" None None None w)
  = Raised (ClientError "connection refused")
  /\ wire (snd (get unreachable json_body "items" None None None w))
     = [mkRequest GET "http://api.test/v1/items" None].
Proof.
  intros w.
  exact (transport_failure_propagates unreachable json_body seed
           (Get "items" None None None) w
           (mkRequest GET "http://api.test/v1/items" None)
           (ClientError "connection refused") eq_refl eq_refl).
Defined.

Lemma one_request_per_call_witness :
  let w := demo_world (__init__ "http://api.test/v1/" None) in
  let after :=
    snd (delete (mock (mkResponse 500 "boom")) json_body "items" (Some "9") w)
  in
  wire after = [mkRequest DELETE "http://api.test/v1/items/9" None]
  /\ sessions after = 0%nat.
Proof.
  intros w after.
  destruct (one_request_per_call (mock (mkResponse 500 "boom")) json_body seed
              (Delete "items" (Some "9")) w
              (mkRequest DELETE "http://api.test/v1/items/9" None) eq_refl)
    as (Hwire & _ & _ & Hsessions).
  exact (conj Hwire Hsessions).
Defined.

Lemma token_separator_witness :
  _build_url (__init__ "http://api.test/v1" (Some "abc"))
    "search?q=1" None None
  = "http://api.test/v1/search?q=1" +:+ "&" +:+ "token=" +:+ "abc".
Proof.
  exact (token_separator (__init__ "http://api.test/v1" (Some "abc")) "abc"
           "search?q=1" None None eq_refl ltac:(discriminate)).
Defined.

Lemma token_of_question_marks_witness :
  _build_url (__init__ "http://api.test/v1" (Some "??")) "users" None None
  = "http://api.test/v1/users" +:+ "?" +:+ "token=".
Proof.
  exact (token_of_question_marks
           (__init__ "http://api.test/v1" (Some "??")) 1
           "users" None None eq_refl).
Defined.

Lemma filter_is_confined_witness :
  wire (snd (get (mock (mkResponse 200 body_a1)) json_body
               "items" None (Some "a b") (Some "x&y=z")
               (demo_world (__init__ "http://api.test/v1/" (Some "abc")))))
  = [mkRequest GET "http://api.test/v1/items?a+b=x%26y%3Dz&token=abc" None].
Proof.
  exact (proj1
    (filter_is_confined (mock (mkResponse 200 body_a1)) json_body
       "items" None "a b" "x&y=z"
       (demo_world (__init__ "http://api.test/v1/" (Some "abc")))
       ltac:(discriminate) ltac:(discriminate))).
Defined.

Lemma post_then_reuse_witness :
  let w := demo_world (__init__ "http://api.test/v1/" None) in
  let stamped := <["id" := JStr "6ba7b810-9dad-11d1-80b4-00c04fd430c8"]>
                   ({["name" := JStr "x"]} : dict) in
  let w1 := snd (post (mock (mkResponse 200 body_a1)) json_body seed
                   "items" 1%positive w) in
  let w2 := snd (post (mock (mkResponse 200 body_a1)) json_body seed
                   "copies" 1%positive w1) in
  wire w2
  = [mkRequest POST "http://api.test/v1/items" (Some stamped);
     mkRequest POST "http://api.test/v1/copies" (Some stamped)]
  /\ drawn w2 = 1%nat.
Proof.
  intros w stamped w1 w2.
  destruct (post_then_reuse (mock (mkResponse 200 body_a1)) json_body seed
              "items" "copies" 1%positive w {["name" := JStr "x"]}
              eq_refl eq_refl) as (Hwire & Hdrawn & _).
  exact (conj Hwire Hdrawn).
Defined.
